(** * LokSarthi: eligibility matcher and progressive profiler

    A shallow embedding of [app/models/schemas.py],
    [app/services/scheme_matcher.py] and the scheme-discovery handler of
    [app/orchestrator.py], with the properties their specification states;
    and of the session log, the profile-update loop of [process_message] and
    the scam check of [app/services/financial_advisor.py], with properties
    read off the code.

    Conventions.
    - Python [int] is [Z]; [str] is [string] (a UTF-8 byte sequence);
      [Optional[T]] is [option T] with [None] for Python's [None].
    - A Python dict read with string keys is a [gmap string _]; the
      eligibility rule set of a scheme, whose keys the code reads one by one,
      is a record of optional entries plus the list of keys the code never
      reads.
    - [completeness_score] is a quotient of two small integers; it is kept
      as a rational.  The code only compares it with 0.8, 0.5 and 0, and for
      the seven values k/6 the rational and the binary floating-point
      comparisons agree.
    - [str.lower] is modelled on the ASCII letters. *)

From Stdlib Require Import ZArith QArith String Ascii List Lia.
From Stdlib Require Import Sorting.Sorted Sorting.Permutation.
From stdpp Require Import base option list gmap strings fin_maps.

Open Scope string_scope.
Open Scope Z_scope.

(* ===================================================================== *)
(** * Data model ([app/models/schemas.py]) *)
(* ===================================================================== *)

Record CitizenProfile := mkCitizenProfile {
  age : option Z;
  gender : option string;
  state : option string;
  district : option string;
  occupation : option string;
  category : option string;
  annual_income : option Z;
  bpl_status : option bool;
  disability : option bool;
  marital_status : option string;
  land_ownership : option bool;
  education_level : option string;
  family_members : option Z;
  children_count : option Z;
  children_in_school : option bool;
  pregnant_in_family : option bool;
  senior_in_family : option bool
}.

(** [CitizenProfile()] : every field defaults to [None]. *)
Definition empty_profile : CitizenProfile :=
  mkCitizenProfile None None None None None None None None None
                   None None None None None None None None.

(** [x is not None] *)
Definition is_not_none {A} (x : option A) : bool :=
  match x with Some _ => true | None => false end.

(** The list comprehension of [completeness_score]: one flag per critical
    field, in the order of [critical_fields]. *)
Definition critical_fields (p : CitizenProfile) : list bool :=
  [ is_not_none (age p); is_not_none (gender p); is_not_none (state p);
    is_not_none (occupation p); is_not_none (category p);
    is_not_none (annual_income p) ].

(** [filled = sum(1 for f in critical_fields if getattr(self, f) is not None)] *)
Definition filled (p : CitizenProfile) : nat :=
  length (List.filter (fun b => b) (critical_fields p)).

(** [filled / len(critical_fields)] *)
Definition completeness_score (p : CitizenProfile) : Q :=
  Z.of_nat (filled p) # Pos.of_nat (length (critical_fields p)).

(** [a >= b] and [a < b] on scores. *)
Definition score_ge (a b : Q) : bool := Qle_bool b a.
Definition score_lt (a b : Q) : bool := negb (Qle_bool b a).

(* ===================================================================== *)
(** * Progressive profiling ([get_profiling_question]) *)
(* ===================================================================== *)

Definition get_profiling_question (p : CitizenProfile) : option string :=
  if score_ge (completeness_score p) (8 # 10) then None
  else if negb (is_not_none (age p)) then Some "age"
  else if negb (is_not_none (gender p)) then Some "gender"
  else if negb (is_not_none (state p)) then Some "state"
  else if negb (is_not_none (occupation p)) then Some "occupation"
  else if negb (is_not_none (category p)) then Some "category"
  else if negb (is_not_none (annual_income p)) then Some "income"
  else if negb (is_not_none (marital_status p)) then Some "marital_status"
  else if negb (is_not_none (bpl_status p)) then Some "bpl"
  else None.

(** The specification's reading of the scan: the eight fields in priority
    order, each with its identifier and whether it is known, and the
    identifier of the first one that is still null. *)
Definition priority_order (p : CitizenProfile) : list (string * bool) :=
  [ ("age", is_not_none (age p));
    ("gender", is_not_none (gender p));
    ("state", is_not_none (state p));
    ("occupation", is_not_none (occupation p));
    ("category", is_not_none (category p));
    ("income", is_not_none (annual_income p));
    ("marital_status", is_not_none (marital_status p));
    ("bpl", is_not_none (bpl_status p)) ].

Fixpoint first_null (fields : list (string * bool)) : option string :=
  match fields with
  | [] => None
  | (name, known) :: rest => if known then first_null rest else Some name
  end.

(** The eight identifiers the scan can name. *)
Definition question_ids : list string :=
  [ "age"; "gender"; "state"; "occupation"; "category"; "income";
    "marital_status"; "bpl" ].

(* ===================================================================== *)
(** * Scheme catalog records *)
(* ===================================================================== *)

(** The [eligibility] dict of a scheme.  An entry is [None] when the key is
    absent.  [rule_other_keys] lists the keys the matcher never reads; they
    only matter for the emptiness test [not rules]. *)
Record Rules := mkRules {
  rule_age_min : option Z;
  rule_age_max : option Z;
  rule_gender : option (list string);
  rule_states : option (list string);
  rule_occupations : option (list string);
  rule_categories : option (list string);
  rule_income_max : option Z;
  rule_bpl_required : option bool;
  rule_disability_required : option bool;
  rule_disability : option bool;
  rule_land_required : option bool;
  rule_marital_status : option (list string);
  rule_other_keys : list string
}.

(** The empty dict [{}]. *)
Definition no_rules : Rules :=
  mkRules None None None None None None None None None None None None [].

(** [not rules] : a dict is falsy exactly when it has no key. *)
Definition rules_is_empty (r : Rules) : bool :=
  negb (is_not_none (rule_age_min r)) && negb (is_not_none (rule_age_max r))
  && negb (is_not_none (rule_gender r)) && negb (is_not_none (rule_states r))
  && negb (is_not_none (rule_occupations r))
  && negb (is_not_none (rule_categories r))
  && negb (is_not_none (rule_income_max r))
  && negb (is_not_none (rule_bpl_required r))
  && negb (is_not_none (rule_disability_required r))
  && negb (is_not_none (rule_disability r))
  && negb (is_not_none (rule_land_required r))
  && negb (is_not_none (rule_marital_status r))
  && match rule_other_keys r with [] => true | _ => false end.

(** A catalog record, restricted to the keys the matcher and the handler
    read.  [name] is always indexed directly; [benefit_amount] and
    [eligibility] are read with a default, so they may be absent. *)
Record Scheme := mkScheme {
  name : string;
  benefit_amount : option string;
  eligibility : option Rules
}.

(** [{"scheme": scheme, "score": score}] *)
Record Match := mkMatch {
  scheme : Scheme;
  score : Z
}.

(* ===================================================================== *)
(** * String helpers *)
(* ===================================================================== *)

Definition lower_ascii (c : ascii) : ascii :=
  let n := nat_of_ascii c in
  if (Nat.leb 65 n && Nat.leb n 90)%bool then ascii_of_nat (n + 32) else c.

(** [s.lower()] *)
Fixpoint lower (s : string) : string :=
  match s with
  | EmptyString => EmptyString
  | String c rest => String (lower_ascii c) (lower rest)
  end.

(** [needle in hay] on strings, for a non-empty [needle]. *)
Definition contains (needle hay : string) : bool :=
  is_not_none (String.index 0 needle hay).

(** [x in xs] on a list of strings. *)
Definition member (x : string) (xs : list string) : bool :=
  bool_decide (x ∈ xs).

(** Truthiness of an optional string: not [None] and not empty. *)
Definition truthy_str (x : option string) : bool :=
  match x with
  | Some s => negb (String.eqb s "")
  | None => false
  end.

(** Truthiness of an optional boolean: [rules.get(k)], [profile.bpl_status]. *)
Definition truthy_bool (x : option bool) : bool :=
  match x with Some true => true | _ => false end.

(* ===================================================================== *)
(** * Eligibility filter ([_passes_filter]) *)
(* ===================================================================== *)

(** One definition per guarded block of [_passes_filter]: [true] when the
    block executes [return False]. *)

Definition rejects_age_min (p : CitizenProfile) (rules : Rules) : bool :=
  match rule_age_min rules, age p with
  | Some lo, Some a => a <? lo
  | _, _ => false
  end.

Definition rejects_age_max (p : CitizenProfile) (rules : Rules) : bool :=
  match rule_age_max rules, age p with
  | Some hi, Some a => a >? hi
  | _, _ => false
  end.

Definition rejects_gender (p : CitizenProfile) (rules : Rules) : bool :=
  match rule_gender rules, gender p with
  | Some allowed, Some g => negb (member g allowed)
  | _, _ => false
  end.

Definition rejects_states (p : CitizenProfile) (rules : Rules) : bool :=
  match rule_states rules, state p with
  | Some allowed, Some s => negb (member (lower s) (List.map lower allowed))
  | _, _ => false
  end.

Definition rejects_occupations (p : CitizenProfile) (rules : Rules) : bool :=
  match rule_occupations rules, occupation p with
  | Some allowed, Some o => negb (member o allowed)
  | _, _ => false
  end.

Definition rejects_categories (p : CitizenProfile) (rules : Rules) : bool :=
  match rule_categories rules, category p with
  | Some allowed, Some c => negb (member c allowed)
  | _, _ => false
  end.

Definition rejects_income_max (p : CitizenProfile) (rules : Rules) : bool :=
  match rule_income_max rules, annual_income p with
  | Some hi, Some i => i >? hi
  | _, _ => false
  end.

Definition rejects_bpl (p : CitizenProfile) (rules : Rules) : bool :=
  if truthy_bool (rule_bpl_required rules) && is_not_none (bpl_status p)
  then negb (truthy_bool (bpl_status p))
  else false.

Definition rejects_disability (p : CitizenProfile) (rules : Rules) : bool :=
  if truthy_bool (rule_disability_required rules)
     || truthy_bool (rule_disability rules)
  then is_not_none (disability p) && negb (truthy_bool (disability p))
  else false.

Definition rejects_land (p : CitizenProfile) (rules : Rules) : bool :=
  if truthy_bool (rule_land_required rules) && is_not_none (land_ownership p)
  then negb (truthy_bool (land_ownership p))
  else false.

Definition rejects_marital_status (p : CitizenProfile) (rules : Rules) : bool :=
  match rule_marital_status rules, marital_status p with
  | Some allowed, Some m => negb (member m allowed)
  | _, _ => false
  end.

Definition _passes_filter (p : CitizenProfile) (rules : Rules) : bool :=
  if rejects_age_min p rules then false
  else if rejects_age_max p rules then false
  else if rejects_gender p rules then false
  else if rejects_states p rules then false
  else if rejects_occupations p rules then false
  else if rejects_categories p rules then false
  else if rejects_income_max p rules then false
  else if rejects_bpl p rules then false
  else if rejects_disability p rules then false
  else if rejects_land p rules then false
  else if rejects_marital_status p rules then false
  else true.

(* ===================================================================== *)
(** * Rule kinds *)
(* ===================================================================== *)

(** The kinds of rule [_passes_filter] evaluates, one per guarded block.
    [DisabilityRequired] covers the key [disability_required] and its alias
    [disability]. *)
Inductive RuleKind :=
  | AgeMin | AgeMax | Gender | States | Occupations | Categories
  | IncomeMax | BplRequired | DisabilityRequired | LandRequired
  | MaritalStatus.

#[global] Instance RuleKind_eq_dec : EqDecision RuleKind.
Proof. solve_decision. Defined.

Definition all_kinds : list RuleKind :=
  [ AgeMin; AgeMax; Gender; States; Occupations; Categories; IncomeMax;
    BplRequired; DisabilityRequired; LandRequired; MaritalStatus ].

(** Whether the profile field a rule kind is compared with is null. *)
Definition field_is_null (p : CitizenProfile) (k : RuleKind) : bool :=
  match k with
  | AgeMin | AgeMax => negb (is_not_none (age p))
  | Gender => negb (is_not_none (gender p))
  | States => negb (is_not_none (state p))
  | Occupations => negb (is_not_none (occupation p))
  | Categories => negb (is_not_none (category p))
  | IncomeMax => negb (is_not_none (annual_income p))
  | BplRequired => negb (is_not_none (bpl_status p))
  | DisabilityRequired => negb (is_not_none (disability p))
  | LandRequired => negb (is_not_none (land_ownership p))
  | MaritalStatus => negb (is_not_none (marital_status p))
  end.

(** Whether a rule of the kind is present in the rule set. *)
Definition rule_present (k : RuleKind) (r : Rules) : bool :=
  match k with
  | AgeMin => is_not_none (rule_age_min r)
  | AgeMax => is_not_none (rule_age_max r)
  | Gender => is_not_none (rule_gender r)
  | States => is_not_none (rule_states r)
  | Occupations => is_not_none (rule_occupations r)
  | Categories => is_not_none (rule_categories r)
  | IncomeMax => is_not_none (rule_income_max r)
  | BplRequired => is_not_none (rule_bpl_required r)
  | DisabilityRequired =>
      is_not_none (rule_disability_required r) || is_not_none (rule_disability r)
  | LandRequired => is_not_none (rule_land_required r)
  | MaritalStatus => is_not_none (rule_marital_status r)
  end.

(** The rule set without the rule of kind [k]. *)
Definition drop_rule (k : RuleKind) (r : Rules) : Rules :=
  let keep {A} (k' : RuleKind) (x : option A) : option A :=
    match k, k' with
    | AgeMin, AgeMin | AgeMax, AgeMax | Gender, Gender | States, States
    | Occupations, Occupations | Categories, Categories
    | IncomeMax, IncomeMax | BplRequired, BplRequired
    | DisabilityRequired, DisabilityRequired | LandRequired, LandRequired
    | MaritalStatus, MaritalStatus => None
    | _, _ => x
    end in
  mkRules (keep AgeMin (rule_age_min r)) (keep AgeMax (rule_age_max r))
          (keep Gender (rule_gender r)) (keep States (rule_states r))
          (keep Occupations (rule_occupations r))
          (keep Categories (rule_categories r))
          (keep IncomeMax (rule_income_max r))
          (keep BplRequired (rule_bpl_required r))
          (keep DisabilityRequired (rule_disability_required r))
          (keep DisabilityRequired (rule_disability r))
          (keep LandRequired (rule_land_required r))
          (keep MaritalStatus (rule_marital_status r))
          (rule_other_keys r).

(** The rule set reduced to the rule of kind [k]. *)
Definition only_rule (k : RuleKind) (r : Rules) : Rules :=
  let keep {A} (k' : RuleKind) (x : option A) : option A :=
    match k, k' with
    | AgeMin, AgeMin | AgeMax, AgeMax | Gender, Gender | States, States
    | Occupations, Occupations | Categories, Categories
    | IncomeMax, IncomeMax | BplRequired, BplRequired
    | DisabilityRequired, DisabilityRequired | LandRequired, LandRequired
    | MaritalStatus, MaritalStatus => x
    | _, _ => None
    end in
  mkRules (keep AgeMin (rule_age_min r)) (keep AgeMax (rule_age_max r))
          (keep Gender (rule_gender r)) (keep States (rule_states r))
          (keep Occupations (rule_occupations r))
          (keep Categories (rule_categories r))
          (keep IncomeMax (rule_income_max r))
          (keep BplRequired (rule_bpl_required r))
          (keep DisabilityRequired (rule_disability_required r))
          (keep DisabilityRequired (rule_disability r))
          (keep LandRequired (rule_land_required r))
          (keep MaritalStatus (rule_marital_status r))
          [].

(** The block of [_passes_filter] that belongs to a rule kind. *)
Definition rejects (k : RuleKind) (p : CitizenProfile) (r : Rules) : bool :=
  match k with
  | AgeMin => rejects_age_min p r
  | AgeMax => rejects_age_max p r
  | Gender => rejects_gender p r
  | States => rejects_states p r
  | Occupations => rejects_occupations p r
  | Categories => rejects_categories p r
  | IncomeMax => rejects_income_max p r
  | BplRequired => rejects_bpl p r
  | DisabilityRequired => rejects_disability p r
  | LandRequired => rejects_land p r
  | MaritalStatus => rejects_marital_status p r
  end.

(* ===================================================================== *)
(** * Relevance score ([_relevance_score]) *)
(* ===================================================================== *)

(** The five bonus conditions, one per [score += ...] of the code. *)

Definition occupation_bonus (p : CitizenProfile) (rules : Rules) : bool :=
  match rule_occupations rules, occupation p with
  | Some allowed, Some o => truthy_str (Some o) && member o allowed
  | _, _ => false
  end.

Definition category_bonus (p : CitizenProfile) (rules : Rules) : bool :=
  match rule_categories rules, category p with
  | Some allowed, Some c => truthy_str (Some c) && member c allowed
  | _, _ => false
  end.

Definition gender_bonus (p : CitizenProfile) (rules : Rules) : bool :=
  match rule_gender rules, gender p with
  | Some allowed, Some g => truthy_str (Some g) && member g allowed
  | _, _ => false
  end.

Definition bpl_bonus (p : CitizenProfile) (rules : Rules) : bool :=
  truthy_bool (rule_bpl_required rules) && truthy_bool (bpl_status p).

(** ["lakh" in benefit.lower() or "₹5,00,000" in benefit] *)
Definition high_value_benefit (s : Scheme) : bool :=
  let benefit := default "" (benefit_amount s) in
  contains "lakh" (lower benefit) || contains "₹5,00,000" benefit.

(** [scheme.get("eligibility", {})] *)
Definition rules_of (s : Scheme) : Rules := default no_rules (eligibility s).

Definition _relevance_score (p : CitizenProfile) (s : Scheme) : Z :=
  let score := 50 in
  let rules := rules_of s in
  let score := if occupation_bonus p rules then score + 15 else score in
  let score := if category_bonus p rules then score + 10 else score in
  let score := if gender_bonus p rules then score + 10 else score in
  let score := if bpl_bonus p rules then score + 10 else score in
  let score := if high_value_benefit s then score + 5 else score in
  Z.min score 100.

(* ===================================================================== *)
(** * Matching ([match_schemes]) *)
(* ===================================================================== *)

(** The test of the loop body: [not rules or _passes_filter(profile, rules)]. *)
Definition eligible (p : CitizenProfile) (s : Scheme) : bool :=
  let rules := rules_of s in
  rules_is_empty rules || _passes_filter p rules.

(** The [for] loop: [matches] grows by [append], in catalog order. *)
Definition candidates (p : CitizenProfile) (schemes : list Scheme) : list Match :=
  fold_left
    (fun (matches : list Match) s =>
       if eligible p s
       then (matches ++ [mkMatch s (_relevance_score p s)])%list
       else matches)
    schemes [].

(** [list.sort(key=lambda m: m["score"], reverse=True)].  Python's sort is
    stable, also with [reverse=True]: entries with equal keys keep their
    order.  It is modelled by a stable insertion sort. *)
Fixpoint insert_desc (m : Match) (sorted : list Match) : list Match :=
  match sorted with
  | [] => [m]
  | m' :: rest =>
      if score m' <? score m then m :: m' :: rest
      else m' :: insert_desc m rest
  end.

Definition sort_desc (matches : list Match) : list Match :=
  fold_left (fun sorted m => insert_desc m sorted) matches [].

(** The order the sort establishes: [a] may stand before [b]. *)
Definition desc (a b : Match) : Prop := score b <= score a.

(** The entries whose score is [v], in their order. *)
Definition with_score (v : Z) (ms : list Match) : list Match :=
  List.filter (fun m => score m =? v) ms.

(** [xs[:k]] for a Python integer [k]: the first [k] entries when [k >= 0],
    all but the last [-k] entries when [k < 0]. *)
Definition slice_to {A} (xs : list A) (k : Z) : list A :=
  if 0 <=? k then take (Z.to_nat k) xs
  else take (Z.to_nat (Z.of_nat (length xs) + k)) xs.

(** [schemes] is the catalog returned by [_load_schemes()]. *)
Definition match_schemes (schemes : list Scheme) (p : CitizenProfile)
    (max_results : Z) : list Match :=
  slice_to (sort_desc (candidates p schemes)) max_results.

(** The default [max_results=7]. *)
Definition default_max_results : Z := 7.

(* ===================================================================== *)
(** * Profile serialisation ([to_dict] and the dataclass constructor) *)
(* ===================================================================== *)

(** The values a profile field can hold. *)
Inductive Value :=
  | VInt (z : Z)
  | VStr (s : string)
  | VBool (b : bool).

(** [asdict(self).items()] : every field with its value, in declaration
    order; [None] is Python's [None]. *)
Definition asdict (p : CitizenProfile) : list (string * option Value) :=
  [ ("age", VInt <$> age p);
    ("gender", VStr <$> gender p);
    ("state", VStr <$> state p);
    ("district", VStr <$> district p);
    ("occupation", VStr <$> occupation p);
    ("category", VStr <$> category p);
    ("annual_income", VInt <$> annual_income p);
    ("bpl_status", VBool <$> bpl_status p);
    ("disability", VBool <$> disability p);
    ("marital_status", VStr <$> marital_status p);
    ("land_ownership", VBool <$> land_ownership p);
    ("education_level", VStr <$> education_level p);
    ("family_members", VInt <$> family_members p);
    ("children_count", VInt <$> children_count p);
    ("children_in_school", VBool <$> children_in_school p);
    ("pregnant_in_family", VBool <$> pregnant_in_family p);
    ("senior_in_family", VBool <$> senior_in_family p) ].

(** [{k: v for k, v in items if v is not None}] *)
Definition dict_of_items (items : list (string * option Value))
    : gmap string Value :=
  list_to_map (omap (fun kv => pair (fst kv) <$> snd kv) items).

Definition to_dict (p : CitizenProfile) : gmap string Value :=
  dict_of_items (asdict p).

(** The parameters of the generated [__init__]. *)
Definition field_names : list string :=
  [ "age"; "gender"; "state"; "district"; "occupation"; "category";
    "annual_income"; "bpl_status"; "disability"; "marital_status";
    "land_ownership"; "education_level"; "family_members"; "children_count";
    "children_in_school"; "pregnant_in_family"; "senior_in_family" ].

(** Reading one keyword argument into a typed field: an absent key gives the
    default [None]; a value of another type has no counterpart in the typed
    record and is refused. *)
Definition int_arg (d : gmap string Value) (k : string) : option (option Z) :=
  match d !! k with
  | None => Some None
  | Some (VInt z) => Some (Some z)
  | Some _ => None
  end.

Definition str_arg (d : gmap string Value) (k : string)
    : option (option string) :=
  match d !! k with
  | None => Some None
  | Some (VStr s) => Some (Some s)
  | Some _ => None
  end.

Definition bool_arg (d : gmap string Value) (k : string)
    : option (option bool) :=
  match d !! k with
  | None => Some None
  | Some (VBool b) => Some (Some b)
  | Some _ => None
  end.

(** The constructor applied to the keyword arguments [d].  A key that is not a field raises [TypeError]
    (here [None]). *)
Definition CitizenProfile_init (d : gmap string Value) : option CitizenProfile :=
  if decide (map_Forall (fun k _ => k ∈ field_names) d) then
    f1 ← int_arg d "age";
    f2 ← str_arg d "gender";
    f3 ← str_arg d "state";
    f4 ← str_arg d "district";
    f5 ← str_arg d "occupation";
    f6 ← str_arg d "category";
    f7 ← int_arg d "annual_income";
    f8 ← bool_arg d "bpl_status";
    f9 ← bool_arg d "disability";
    f10 ← str_arg d "marital_status";
    f11 ← bool_arg d "land_ownership";
    f12 ← str_arg d "education_level";
    f13 ← int_arg d "family_members";
    f14 ← int_arg d "children_count";
    f15 ← bool_arg d "children_in_school";
    f16 ← bool_arg d "pregnant_in_family";
    f17 ← bool_arg d "senior_in_family";
    Some (mkCitizenProfile f1 f2 f3 f4 f5 f6 f7 f8 f9 f10 f11 f12 f13 f14
                           f15 f16 f17)
  else None.

(* ===================================================================== *)
(** * Scheme-discovery handler ([app/orchestrator.py]) *)
(* ===================================================================== *)

(** The question table, keyed by question identifier, then by language. *)
Definition PROFILE_QUESTIONS : gmap string (gmap string string) :=
  list_to_map
    [ ("age", list_to_map
         [ ("hi", "🙏 आपकी उम्र कितनी है?");
           ("en", "🙏 What is your age?") ]);
      ("gender", list_to_map
         [ ("hi", "आप पुरुष हैं या महिला?");
           ("en", "Are you male or female?") ]);
      ("state", list_to_map
         [ ("hi", "आप किस राज्य में रहते हैं?");
           ("en", "Which state do you live in?") ]);
      ("occupation", list_to_map
         [ ("hi", "आप क्या काम करते हैं? (किसान, मज़दूर, दुकानदार, छात्र, गृहिणी...)");
           ("en", "What is your occupation? (farmer, labourer, vendor, student, homemaker...)") ]);
      ("category", list_to_map
         [ ("hi", "आपकी श्रेणी क्या है? (सामान्य, SC, ST, OBC, अल्पसंख्यक)");
           ("en", "What is your category? (General, SC, ST, OBC, Minority)") ]);
      ("income", list_to_map
         [ ("hi", "आपकी सालाना आय (कमाई) लगभग कितनी है?");
           ("en", "What is your approximate annual income?") ]);
      ("marital_status", list_to_map
         [ ("hi", "आपकी वैवाहिक स्थिति क्या है? (विवाहित, अविवाहित, विधवा/विधुर)");
           ("en", "What is your marital status? (married, single, widowed)") ]);
      ("bpl", list_to_map
         [ ("hi", "क्या आपके पास BPL (गरीबी रेखा से नीचे) कार्ड है?");
           ("en", "Do you have a BPL (Below Poverty Line) card?") ]) ].

(** The entries the handler stores in [session.matched_schemes]. *)
Record MatchedScheme := mkMatchedScheme {
  ms_name : string;
  ms_benefit : string;
  ms_score : Z
}.

(** The session, restricted to what the handler reads and writes (the
    conversation log and its time stamps are left out). *)
Record Session := mkSession {
  session_id : string;
  user_id : option string;
  language : string;
  current_pillar : string;
  profile : CitizenProfile;
  matched_schemes : list MatchedScheme
}.

Definition set_matched_schemes (s : Session) (ms : list MatchedScheme) : Session :=
  mkSession (session_id s) (user_id s) (language s) (current_pillar s)
            (profile s) ms.

(** Dict indexing [d[k]] can raise [KeyError]. *)
Inductive result (A : Type) :=
  | Ok (a : A)
  | KeyError (key : string).
Arguments Ok {A} a.
Arguments KeyError {A} key.

Definition bind {A B} (r : result A) (k : A -> result B) : result B :=
  match r with
  | Ok a => k a
  | KeyError key => KeyError key
  end.

Definition index {A} (d : gmap string A) (k : string) : result A :=
  match d !! k with
  | Some a => Ok a
  | None => KeyError k
  end.

(** What the handler answers with: a profiling question it composed itself,
    or the text that [explain_schemes] obtains from the text-generation
    service for the given matches; the latter is represented by the call. *)
Inductive Reply :=
  | AskQuestion (text : string)
  | ExplainSchemes (matches : list Match) (p : CitizenProfile) (language : string).

Definition newline : string := String (ascii_of_nat 10) EmptyString.

(** [PROFILE_QUESTIONS.get(q, {}).get(language, PROFILE_QUESTIONS[q]["en"])] :
    the default is evaluated first, so an identifier outside the table
    raises [KeyError]. *)
Definition question_text (q language : string) : result string :=
  bind (index PROFILE_QUESTIONS q) (fun by_language =>
  bind (index by_language "en") (fun fallback =>
  Ok (default fallback (default ∅ (PROFILE_QUESTIONS !! q) !! language)))).

Definition intro : gmap string string :=
  list_to_map
    [ ("hi", "चलिए, आपके लिए सही योजनाएँ ढूंढते हैं! बस कुछ सवालों के जवाब दीजिए:" ++ newline ++ newline);
      ("en", "Let me find the right schemes for you! Just answer a few questions:" ++ newline ++ newline) ].

(** The list comprehension over [matches]; [m["scheme"]["benefit_amount"]]
    raises [KeyError] when the scheme has no such key. *)
Fixpoint summarise (matches : list Match) : result (list MatchedScheme) :=
  match matches with
  | [] => Ok []
  | m :: rest =>
      match benefit_amount (scheme m) with
      | None => KeyError "benefit_amount"
      | Some benefit =>
          bind (summarise rest) (fun tl =>
          Ok (mkMatchedScheme (name (scheme m)) benefit (score m) :: tl))
      end
  end.

(** [schemes] is the catalog [match_schemes] reads through [_load_schemes()]. *)
Definition _handle_scheme_discovery (schemes : list Scheme) (session : Session)
    (language : string) : result (Session * Reply) :=
  let next_question := get_profiling_question (profile session) in
  if truthy_str next_question
     && score_lt (completeness_score (profile session)) (1 # 2)
  then
    bind (question_text (default "" next_question) language) (fun question =>
    if Qeq_bool (completeness_score (profile session)) 0 then
      bind (index intro "en") (fun fallback =>
      Ok (session, AskQuestion (default fallback (intro !! language) ++ question)))
    else
      Ok (session,
          AskQuestion
            (if String.eqb language "hi"
             then ("धन्यवाद! 👍 अगला सवाल:" ++ newline ++ newline) ++ question
             else ("Thank you! 👍 Next question:" ++ newline ++ newline) ++ question)))
  else
    let matches := match_schemes schemes (profile session) default_max_results in
    bind (summarise matches) (fun summary =>
    Ok (set_matched_schemes session summary,
        ExplainSchemes matches (profile session) language)).

(* ===================================================================== *)
(** * Growing profiles *)
(* ===================================================================== *)

(** [y] keeps what [x] knows: a field is either still unknown in [x] or has
    the same value in both. *)
Definition keeps {A} (x y : option A) : Prop := x = None \/ x = y.

(** A later state of the same citizen's profile: nothing known is changed,
    unknown fields may have been filled in. *)
Definition profile_extends (p p' : CitizenProfile) : Prop :=
  keeps (age p) (age p') /\ keeps (gender p) (gender p') /\
  keeps (state p) (state p') /\ keeps (district p) (district p') /\
  keeps (occupation p) (occupation p') /\ keeps (category p) (category p') /\
  keeps (annual_income p) (annual_income p') /\
  keeps (bpl_status p) (bpl_status p') /\
  keeps (disability p) (disability p') /\
  keeps (marital_status p) (marital_status p') /\
  keeps (land_ownership p) (land_ownership p') /\
  keeps (education_level p) (education_level p') /\
  keeps (family_members p) (family_members p') /\
  keeps (children_count p) (children_count p') /\
  keeps (children_in_school p) (children_in_school p') /\
  keeps (pregnant_in_family p) (pregnant_in_family p') /\
  keeps (senior_in_family p) (senior_in_family p').

(* ===================================================================== *)
(** * Sessions ([Session] in [app/models/schemas.py]) *)
(* ===================================================================== *)

(** One entry of [conversation_history].  A time stamp is a reading of
    [time.time()]: a finite floating-point number, that is, a rational; the
    code only stores it and truncates it with [int]. *)
Record Message := mkMessage {
  role : string;
  content : string;
  timestamp : Q
}.

(** The whole dataclass: the fields of [Session] above, the conversation
    log and the two time stamps. *)
Record SessionState := mkSessionState {
  core : Session;
  conversation_history : list Message;
  created_at : Q;
  updated_at : Q
}.

(** [xs[k:]] for a Python integer [k]: without the first [k] entries when
    [k >= 0], the last [-k] entries when [k < 0]. *)
Definition slice_from {A} (xs : list A) (k : Z) : list A :=
  if 0 <=? k then drop (Z.to_nat k) xs
  else drop (Z.to_nat (Z.of_nat (length xs) + k)) xs.

(** [add_message]: the two arguments [t_message] and [t_update] are the two
    readings of [time.time()] the method takes. *)
Definition add_message (s : SessionState) (role content : string)
    (t_message t_update : Q) : SessionState :=
  mkSessionState (core s)
                 (conversation_history s ++ [mkMessage role content t_message])%list
                 (created_at s)
                 t_update.

(** [get_recent_history(n)] is [conversation_history[-n:]]. *)
Definition get_recent_history (s : SessionState) (n : Z) : list Message :=
  slice_from (conversation_history s) (- n).

(** [int(x)] on a finite float: truncation towards zero. *)
Definition int_of (x : Q) : Z := Z.quot (Qnum x) (Zpos (Qden x)).

(** The dict [Session.to_dict] builds and [Session.from_dict] reads.  An
    entry is [None] when the key is absent ([user_id] also when its value is
    [None], which [dict.get] does not tell apart). *)
Record SessionDict := mkSessionDict {
  d_session_id : option string;
  d_user_id : option string;
  d_language : option string;
  d_current_pillar : option string;
  d_profile : option (gmap string Value);
  d_conversation_history : option (list Message);
  d_matched_schemes : option (list MatchedScheme);
  d_created_at : option Q;
  d_updated_at : option Q
}.

Definition Session_to_dict (s : SessionState) : SessionDict :=
  mkSessionDict
    (Some (session_id (core s)))
    (user_id (core s))
    (Some (language (core s)))
    (Some (current_pillar (core s)))
    (Some (to_dict (profile (core s))))
    (Some (slice_from (conversation_history s) (-20)))
    (Some (matched_schemes (core s)))
    (Some (inject_Z (int_of (created_at s))))
    (Some (inject_Z (int_of (updated_at s)))).

(** What [Session.from_dict] can raise. *)
Inductive Exn :=
  | ExnTypeError
  | ExnKeyError (key : string).

(** [Session.from_dict]: the profile is built first ([TypeError] on a key
    that is not a field), then [data["session_id"]] is read ([KeyError]);
    [t_created] and [t_updated] are the readings of [time.time()] taken for
    the defaults. *)
Definition Session_from_dict (data : SessionDict) (t_created t_updated : Q)
    : Exn + SessionState :=
  match CitizenProfile_init (default ∅ (d_profile data)) with
  | None => inl ExnTypeError
  | Some p =>
      match d_session_id data with
      | None => inl (ExnKeyError "session_id")
      | Some sid =>
          inr (mkSessionState
                 (mkSession sid
                            (d_user_id data)
                            (default "hi" (d_language data))
                            (default "greeting" (d_current_pillar data))
                            p
                            (default [] (d_matched_schemes data)))
                 (default [] (d_conversation_history data))
                 (default t_created (d_created_at data))
                 (default t_updated (d_updated_at data)))
      end
  end.

(* ===================================================================== *)
(** * Scam detection ([app/services/financial_advisor.py]) *)
(* ===================================================================== *)

Record ScamPattern := mkScamPattern {
  keywords : list string;
  alert_hi : string;
  alert_en : string
}.

Definition SCAM_PATTERNS : list ScamPattern :=
  [ mkScamPattern
      [ "otp"; "share otp"; "otp batao"; "otp do" ]
      "🚨 ख़तरा! OTP कभी किसी को मत दीजिए। कोई भी बैंक या सरकारी अधिकारी OTP नहीं मांगता। यह 100% FRAUD है।"
      "🚨 DANGER! Never share your OTP with anyone. No bank or government official ever asks for OTP. This is 100% FRAUD.";
    mkScamPattern
      [ "advance fee"; "processing fee pehle"; "pehle paisa do";
        "loan ke liye paisa" ]
      "🚨 ख़तरा! लोन लेने के लिए पहले पैसा देना FRAUD है। कोई भी सरकारी योजना या बैंक पहले पैसा नहीं मांगता।"
      "🚨 DANGER! Paying money upfront to get a loan is FRAUD. No government scheme or bank asks for advance payment.";
    mkScamPattern
      [ "lottery"; "prize"; "jackpot"; "inam"; "crore jeet" ]
      "🚨 ख़तरा! यह FRAUD है। आपने कोई लॉटरी नहीं जीती। पैसा बिल्कुल मत दीजिए।"
      "🚨 DANGER! This is FRAUD. You have not won any lottery. Do NOT send any money.";
    mkScamPattern
      [ "insurance expire"; "kyc update"; "account block"; "account band" ]
      "🚨 सावधान! यह शायद FRAUD है। बैंक कभी फोन पर KYC update नहीं करवाता। अपने नज़दीकी बैंक ब्रांच में जाकर पूछें।"
      "🚨 CAUTION! This is likely FRAUD. Banks never do KYC updates over phone. Visit your nearest bank branch.";
    mkScamPattern
      [ "link click"; "click karo"; "link open"; "form bharo online" ]
      "🚨 सावधान! अनजान लिंक पर क्लिक मत करें। हमेशा सरकारी वेबसाइट (.gov.in) पर ही जाएं।"
      "🚨 CAUTION! Do not click unknown links. Always visit official government websites (.gov.in)." ].

(** The inner loop: is some keyword of the pattern contained in the text? *)
Fixpoint any_keyword (kws : list string) (text_lower : string) : bool :=
  match kws with
  | [] => false
  | keyword :: rest =>
      if contains keyword text_lower then true else any_keyword rest text_lower
  end.

(** The outer loop: the first pattern with a keyword in the text. *)
Fixpoint first_pattern (patterns : list ScamPattern) (text_lower : string)
    : option ScamPattern :=
  match patterns with
  | [] => None
  | pattern :: rest =>
      if any_keyword (keywords pattern) text_lower then Some pattern
      else first_pattern rest text_lower
  end.

(** [detect_scam] returns a dict with the key [is_scam] and, for a scam, the
    two alerts. *)
Definition detect_scam (text : string) : gmap string Value :=
  let text_lower := lower text in
  match first_pattern SCAM_PATTERNS text_lower with
  | Some pattern =>
      list_to_map [ ("is_scam", VBool true);
                    ("alert_hi", VStr (alert_hi pattern));
                    ("alert_en", VStr (alert_en pattern)) ]
  | None => list_to_map [ ("is_scam", VBool false) ]
  end.

(** Truthiness of a dict value. *)
Definition truthy_value (v : Value) : bool :=
  match v with
  | VBool b => b
  | VInt z => negb (z =? 0)
  | VStr s => negb (String.eqb s "")
  end.

(** What [handle_financial_query] answers with: an alert taken from the
    scam check, or the text the text-generation service produces for the
    message, the profile and the language; the latter is represented by the
    call. *)
Inductive FinancialReply :=
  | ScamAlert (alert : Value)
  | FinancialAdvice (user_message : string) (p : CitizenProfile)
                    (language : string).

Definition handle_financial_query (user_message : string)
    (p : CitizenProfile) (language : string) : result FinancialReply :=
  let scam_check := detect_scam user_message in
  bind (index scam_check "is_scam") (fun is_scam =>
  if truthy_value is_scam then
    bind (index scam_check "alert_en") (fun fallback =>
    Ok (ScamAlert (default fallback (scam_check !! ("alert_" ++ language)))))
  else
    Ok (FinancialAdvice user_message p language)).

(* ===================================================================== *)
(** * Profile updates (step 2 of [process_message], [app/orchestrator.py]) *)
(* ===================================================================== *)

(** [getattr(profile, field)] for a dataclass field, as a dict value; [None]
    when the field is null or [field] is not a field name. *)
Definition getattr_field (p : CitizenProfile) (field : string) : option Value :=
  if String.eqb field "age" then VInt <$> age p
  else if String.eqb field "gender" then VStr <$> gender p
  else if String.eqb field "state" then VStr <$> state p
  else if String.eqb field "district" then VStr <$> district p
  else if String.eqb field "occupation" then VStr <$> occupation p
  else if String.eqb field "category" then VStr <$> category p
  else if String.eqb field "annual_income" then VInt <$> annual_income p
  else if String.eqb field "bpl_status" then VBool <$> bpl_status p
  else if String.eqb field "disability" then VBool <$> disability p
  else if String.eqb field "marital_status" then VStr <$> marital_status p
  else if String.eqb field "land_ownership" then VBool <$> land_ownership p
  else if String.eqb field "education_level" then VStr <$> education_level p
  else if String.eqb field "family_members" then VInt <$> family_members p
  else if String.eqb field "children_count" then VInt <$> children_count p
  else if String.eqb field "children_in_school" then VBool <$> children_in_school p
  else if String.eqb field "pregnant_in_family" then VBool <$> pregnant_in_family p
  else if String.eqb field "senior_in_family" then VBool <$> senior_in_family p
  else None.

(** [setattr(profile, field, value)] for a dataclass field and a value of
    the type the field is annotated with; [None] stands for every other call,
    which the typed record cannot follow. *)
Definition setattr_field (p : CitizenProfile) (field : string) (value : Value)
    : option CitizenProfile :=
  match value with
  | VInt z =>
      if String.eqb field "age" then
        Some (mkCitizenProfile
          (Some z) (gender p) (state p) (district p) (occupation p)
          (category p) (annual_income p) (bpl_status p) (disability p)
          (marital_status p) (land_ownership p) (education_level p)
          (family_members p) (children_count p) (children_in_school p)
          (pregnant_in_family p) (senior_in_family p))
      else if String.eqb field "annual_income" then
        Some (mkCitizenProfile
          (age p) (gender p) (state p) (district p) (occupation p)
          (category p) (Some z) (bpl_status p) (disability p)
          (marital_status p) (land_ownership p) (education_level p)
          (family_members p) (children_count p) (children_in_school p)
          (pregnant_in_family p) (senior_in_family p))
      else if String.eqb field "family_members" then
        Some (mkCitizenProfile
          (age p) (gender p) (state p) (district p) (occupation p)
          (category p) (annual_income p) (bpl_status p) (disability p)
          (marital_status p) (land_ownership p) (education_level p) (Some z)
          (children_count p) (children_in_school p) (pregnant_in_family p)
          (senior_in_family p))
      else if String.eqb field "children_count" then
        Some (mkCitizenProfile
          (age p) (gender p) (state p) (district p) (occupation p)
          (category p) (annual_income p) (bpl_status p) (disability p)
          (marital_status p) (land_ownership p) (education_level p)
          (family_members p) (Some z) (children_in_school p)
          (pregnant_in_family p) (senior_in_family p))
      else None
  | VStr x =>
      if String.eqb field "gender" then
        Some (mkCitizenProfile
          (age p) (Some x) (state p) (district p) (occupation p) (category p)
          (annual_income p) (bpl_status p) (disability p) (marital_status p)
          (land_ownership p) (education_level p) (family_members p)
          (children_count p) (children_in_school p) (pregnant_in_family p)
          (senior_in_family p))
      else if String.eqb field "state" then
        Some (mkCitizenProfile
          (age p) (gender p) (Some x) (district p) (occupation p)
          (category p) (annual_income p) (bpl_status p) (disability p)
          (marital_status p) (land_ownership p) (education_level p)
          (family_members p) (children_count p) (children_in_school p)
          (pregnant_in_family p) (senior_in_family p))
      else if String.eqb field "district" then
        Some (mkCitizenProfile
          (age p) (gender p) (state p) (Some x) (occupation p) (category p)
          (annual_income p) (bpl_status p) (disability p) (marital_status p)
          (land_ownership p) (education_level p) (family_members p)
          (children_count p) (children_in_school p) (pregnant_in_family p)
          (senior_in_family p))
      else if String.eqb field "occupation" then
        Some (mkCitizenProfile
          (age p) (gender p) (state p) (district p) (Some x) (category p)
          (annual_income p) (bpl_status p) (disability p) (marital_status p)
          (land_ownership p) (education_level p) (family_members p)
          (children_count p) (children_in_school p) (pregnant_in_family p)
          (senior_in_family p))
      else if String.eqb field "category" then
        Some (mkCitizenProfile
          (age p) (gender p) (state p) (district p) (occupation p) (Some x)
          (annual_income p) (bpl_status p) (disability p) (marital_status p)
          (land_ownership p) (education_level p) (family_members p)
          (children_count p) (children_in_school p) (pregnant_in_family p)
          (senior_in_family p))
      else if String.eqb field "marital_status" then
        Some (mkCitizenProfile
          (age p) (gender p) (state p) (district p) (occupation p)
          (category p) (annual_income p) (bpl_status p) (disability p)
          (Some x) (land_ownership p) (education_level p) (family_members p)
          (children_count p) (children_in_school p) (pregnant_in_family p)
          (senior_in_family p))
      else if String.eqb field "education_level" then
        Some (mkCitizenProfile
          (age p) (gender p) (state p) (district p) (occupation p)
          (category p) (annual_income p) (bpl_status p) (disability p)
          (marital_status p) (land_ownership p) (Some x) (family_members p)
          (children_count p) (children_in_school p) (pregnant_in_family p)
          (senior_in_family p))
      else None
  | VBool y =>
      if String.eqb field "bpl_status" then
        Some (mkCitizenProfile
          (age p) (gender p) (state p) (district p) (occupation p)
          (category p) (annual_income p) (Some y) (disability p)
          (marital_status p) (land_ownership p) (education_level p)
          (family_members p) (children_count p) (children_in_school p)
          (pregnant_in_family p) (senior_in_family p))
      else if String.eqb field "disability" then
        Some (mkCitizenProfile
          (age p) (gender p) (state p) (district p) (occupation p)
          (category p) (annual_income p) (bpl_status p) (Some y)
          (marital_status p) (land_ownership p) (education_level p)
          (family_members p) (children_count p) (children_in_school p)
          (pregnant_in_family p) (senior_in_family p))
      else if String.eqb field "land_ownership" then
        Some (mkCitizenProfile
          (age p) (gender p) (state p) (district p) (occupation p)
          (category p) (annual_income p) (bpl_status p) (disability p)
          (marital_status p) (Some y) (education_level p) (family_members p)
          (children_count p) (children_in_school p) (pregnant_in_family p)
          (senior_in_family p))
      else if String.eqb field "children_in_school" then
        Some (mkCitizenProfile
          (age p) (gender p) (state p) (district p) (occupation p)
          (category p) (annual_income p) (bpl_status p) (disability p)
          (marital_status p) (land_ownership p) (education_level p)
          (family_members p) (children_count p) (Some y)
          (pregnant_in_family p) (senior_in_family p))
      else if String.eqb field "pregnant_in_family" then
        Some (mkCitizenProfile
          (age p) (gender p) (state p) (district p) (occupation p)
          (category p) (annual_income p) (bpl_status p) (disability p)
          (marital_status p) (land_ownership p) (education_level p)
          (family_members p) (children_count p) (children_in_school p)
          (Some y) (senior_in_family p))
      else if String.eqb field "senior_in_family" then
        Some (mkCitizenProfile
          (age p) (gender p) (state p) (district p) (occupation p)
          (category p) (annual_income p) (bpl_status p) (disability p)
          (marital_status p) (land_ownership p) (education_level p)
          (family_members p) (children_count p) (children_in_school p)
          (pregnant_in_family p) (Some y))
      else None
  end.

(** Names for which [hasattr(profile, name)] holds although they are not
    fields: the two methods, and the double-underscore attributes every
    object has (all names of that form are taken to be such). *)
Definition other_attribute (name : string) : bool :=
  member name ["completeness_score"; "to_dict"] || String.prefix "__" name.

(** One turn of the loop
    [if hasattr(session.profile, field) and value is not None: setattr(...)].
    [None] for a value is the JSON [null]. *)
Definition update_step (p : CitizenProfile) (item : string * option Value)
    : option CitizenProfile :=
  match snd item with
  | None => Some p
  | Some value =>
      if member (fst item) field_names then setattr_field p (fst item) value
      else if other_attribute (fst item) then None
      else Some p
  end.

(** The loop over [profile_updates.items()]. *)
Fixpoint apply_profile_updates (p : CitizenProfile)
    (items : list (string * option Value)) : option CitizenProfile :=
  match items with
  | [] => Some p
  | item :: rest =>
      match update_step p item with
      | Some p' => apply_profile_updates p' rest
      | None => None
      end
  end.

(** The last value that is not null among the items for [field]. *)
Fixpoint latest_value (field : string) (items : list (string * option Value))
    : option Value :=
  match items with
  | [] => None
  | item :: rest =>
      match latest_value field rest with
      | Some v => Some v
      | None => if String.eqb (fst item) field then snd item else None
      end
  end.

(* ===================================================================== *)
(** * Concrete inputs used below *)
(* ===================================================================== *)

(** Scenario A of the specification. *)
Definition scenario_A_profile : CitizenProfile :=
  mkCitizenProfile (Some 35) (Some "female") (Some "Bihar") None
                   (Some "farmer") (Some "general") (Some 80000)
                   None None None None None None None None None None.

Definition scenario_A_rules : Rules :=
  mkRules None None None None (Some ["farmer"]) None (Some 200000)
          None None None None None [].

(** Scenario B of the specification: a 70-year-old against [age_max: 60]. *)
Definition scenario_B_profile : CitizenProfile :=
  mkCitizenProfile (Some 70) None None None None None None None None
                   None None None None None None None None.

Definition scenario_B_rules : Rules :=
  mkRules None (Some 60) None None None None None None None None None None [].

(** A scheme every citizen is eligible for: no [eligibility] key. *)
Definition universal_scheme : Scheme := mkScheme "Jan Dhan" None None.

(** A session with three messages in its log. *)
Definition example_session : SessionState :=
  mkSessionState (mkSession "s1" None "hi" "greeting" empty_profile [])
                 [ mkMessage "user" "namaste" 0;
                   mkMessage "assistant" "namaste" 0;
                   mkMessage "user" "yojana" 0 ]
                 0 0.

(** A profile that only knows its age. *)
Definition age_only_profile : CitizenProfile :=
  mkCitizenProfile (Some 35) None None None None None None None None
                   None None None None None None None None.

(* ===================================================================== *)
(** * Properties of the progressive profiler *)
(* ===================================================================== *)

(** Case analysis on the eight fields the profiler reads. *)
Ltac profile_cases p :=
  destruct p as [a g s d o c i b di m lo ed fm cc cs pf sf];
  destruct a, g, s, o, c, i, m, b.

Lemma completeness_score_filled (p : CitizenProfile) :
  completeness_score p = (Z.of_nat (filled p) # 6).
Proof. reflexivity. Qed.

Lemma filled_le_6 (p : CitizenProfile) : (filled p <= 6)%nat.
Proof. profile_cases p; vm_compute; lia. Qed.

(** Below the 0.8 threshold at most four critical fields are known, so the
    scan stops at a critical field: the last two identifiers are never
    produced. *)
Lemma get_profiling_question_critical (p : CitizenProfile) (q : string) :
  get_profiling_question p = Some q ->
  q = "age" \/ q = "gender" \/ q = "state" \/ q = "occupation" \/
  q = "category" \/ q = "income".
Proof.
  profile_cases p; vm_compute; intros H; try discriminate H;
    injection H as <-; tauto.
Qed.

(** Closed facts about concrete strings, lists and tables. *)
Ltac by_compute := apply (bool_decide_unpack _); vm_compute; exact I.

(** C1 (as amended): once the completeness score is at least 0.8 the
    profiler reports the profile complete: it returns no question, whether
    or not [marital_status] or [bpl_status] is still null. *)
Theorem profiling_complete_at_threshold (p : CitizenProfile) :
  score_ge (completeness_score p) (8 # 10) = true ->
  get_profiling_question p = None.
Proof.
  intros H. unfold get_profiling_question. rewrite H. reflexivity.
Qed.

Lemma profiling_complete_at_threshold_witness :
  score_ge (completeness_score scenario_A_profile) (8 # 10) = true /\
  marital_status scenario_A_profile = None /\
  get_profiling_question scenario_A_profile = None.
Proof.
  split; [reflexivity | split; [reflexivity |]].
  apply (profiling_complete_at_threshold scenario_A_profile). reflexivity.
Defined.

(** C1 (as stated) fails: the Scenario A profile knows its six critical
    fields (score 1), its [marital_status] is null, and the profiler does not
    report ["marital_status"] as pending but returns no question. *)
Lemma profiling_pending_counterexample :
  score_ge (completeness_score scenario_A_profile) (8 # 10) = true /\
  marital_status scenario_A_profile = None /\
  get_profiling_question scenario_A_profile <> Some "marital_status" /\
  get_profiling_question scenario_A_profile = None.
Proof. repeat split; vm_compute; congruence. Qed.

(** C2: below the 0.8 threshold the profiler returns the identifier of the
    first null field in the fixed priority order age, gender, state,
    occupation, category, income, marital_status, bpl; and when all eight
    fields are known it returns no question. *)
Theorem profiling_scans_in_priority_order (p : CitizenProfile) :
  List.map fst (priority_order p) = question_ids /\
  (score_lt (completeness_score p) (8 # 10) = true ->
   get_profiling_question p = first_null (priority_order p)) /\
  (Forall (fun f => snd f = true) (priority_order p) ->
   get_profiling_question p = None).
Proof.
  split; [reflexivity | split].
  - profile_cases p; vm_compute; intros H; try discriminate H; reflexivity.
  - intros H. unfold priority_order in H.
    repeat (apply Forall_cons_iff in H as [? H]). simpl in *.
    profile_cases p; simpl in *; try discriminate; reflexivity.
Qed.

Lemma profiling_scans_in_priority_order_witness :
  score_lt (completeness_score age_only_profile) (8 # 10) = true /\
  get_profiling_question age_only_profile = Some "gender" /\
  get_profiling_question
    (mkCitizenProfile (Some 35) (Some "female") (Some "Bihar") None
       (Some "farmer") (Some "general") (Some 80000) (Some true) None
       (Some "married") None None None None None None None) = None.
Proof.
  split; [reflexivity | split].
  - apply (proj1 (proj2 (profiling_scans_in_priority_order age_only_profile))).
    reflexivity.
  - apply (proj2 (proj2 (profiling_scans_in_priority_order _))).
    repeat constructor.
Defined.

(** C9: whatever the profile, the profiler returns [None] or one of the
    eight identifiers age, gender, state, occupation, category, income,
    marital_status, bpl; a returned ["income"] stands for a null
    [annual_income]; the identifier is never a profile field name
    ["annual_income"] or ["bpl_status"]; and each of the eight identifiers is
    a key of [PROFILE_QUESTIONS]. *)
Theorem profiling_question_in_table (p : CitizenProfile) (q : string) :
  get_profiling_question p = Some q ->
  q ∈ question_ids /\
  is_Some (PROFILE_QUESTIONS !! q) /\
  (q = "income" -> annual_income p = None) /\
  q <> "annual_income" /\ q <> "bpl_status" /\
  Forall (fun k => is_Some (PROFILE_QUESTIONS !! k)) question_ids.
Proof.
  intros H. pose proof H as H'.
  assert (Hall : Forall (fun k => is_Some (PROFILE_QUESTIONS !! k)) question_ids).
  { repeat constructor; vm_compute; eauto. }
  apply get_profiling_question_critical in H'.
  repeat split; try assumption.
  - destruct H' as [->|[->|[->|[->|[->| ->]]]]]; by_compute.
  - destruct H' as [->|[->|[->|[->|[->| ->]]]]]; vm_compute; eauto.
  - intros ->. revert H.
    profile_cases p; vm_compute; intros H; try discriminate H; reflexivity.
  - destruct H' as [->|[->|[->|[->|[->| ->]]]]]; discriminate.
  - destruct H' as [->|[->|[->|[->|[->| ->]]]]]; discriminate.
Qed.

Lemma profiling_question_in_table_witness :
  get_profiling_question empty_profile = Some "age" /\
  is_Some (PROFILE_QUESTIONS !! "age").
Proof.
  split; [reflexivity |].
  apply (profiling_question_in_table empty_profile "age"). reflexivity.
Defined.

(* ===================================================================== *)
(** * Properties of the eligibility filter *)
(* ===================================================================== *)

(** The filter passes exactly when no block rejects. *)
Lemma passes_filter_rejects (p : CitizenProfile) (r : Rules) :
  _passes_filter p r = negb (existsb (fun k => rejects k p r) all_kinds).
Proof.
  unfold _passes_filter. cbn [existsb all_kinds rejects].
  destruct (rejects_age_min p r); [reflexivity |].
  destruct (rejects_age_max p r); [reflexivity |].
  destruct (rejects_gender p r); [reflexivity |].
  destruct (rejects_states p r); [reflexivity |].
  destruct (rejects_occupations p r); [reflexivity |].
  destruct (rejects_categories p r); [reflexivity |].
  destruct (rejects_income_max p r); [reflexivity |].
  destruct (rejects_bpl p r); [reflexivity |].
  destruct (rejects_disability p r); [reflexivity |].
  destruct (rejects_land p r); [reflexivity |].
  destruct (rejects_marital_status p r); reflexivity.
Qed.

Lemma all_kinds_complete (k : RuleKind) : In k all_kinds.
Proof. destruct k; simpl; tauto. Qed.

(** A block rejects only on a rule that is present and a field that is
    known. *)
Lemma rejects_known (k : RuleKind) (p : CitizenProfile) (r : Rules) :
  rejects k p r = true ->
  field_is_null p k = false /\ rule_present k r = true.
Proof.
  destruct r as [amin amax gen sts occ cat inc bpl dreq dis land mar other].
  destruct p as [a g s d o c i b di m lo ed fm cc cs pf sf].
  destruct k; cbn;
    unfold rejects_age_min, rejects_age_max, rejects_gender, rejects_states,
      rejects_occupations, rejects_categories, rejects_income_max,
      rejects_bpl, rejects_disability, rejects_land, rejects_marital_status;
    cbn.
  - destruct amin, a; cbn; intros; try discriminate; auto.
  - destruct amax, a; cbn; intros; try discriminate; auto.
  - destruct gen, g; cbn; intros; try discriminate; auto.
  - destruct sts, s; cbn; intros; try discriminate; auto.
  - destruct occ, o; cbn; intros; try discriminate; auto.
  - destruct cat, c; cbn; intros; try discriminate; auto.
  - destruct inc, i; cbn; intros; try discriminate; auto.
  - destruct bpl as [[]|], b; cbn; intros; try discriminate; auto.
  - destruct dreq as [[]|], dis as [[]|], di; cbn; intros;
      try discriminate; auto.
  - destruct land as [[]|], lo; cbn; intros; try discriminate; auto.
  - destruct mar, m; cbn; intros; try discriminate; auto.
Qed.

Lemma rejects_only_same (k : RuleKind) (p : CitizenProfile) (r : Rules) :
  rejects k p (only_rule k r) = rejects k p r.
Proof. destruct k, r; reflexivity. Qed.

Lemma rejects_drop_same (k : RuleKind) (p : CitizenProfile) (r : Rules) :
  rejects k p (drop_rule k r) = false.
Proof. destruct k, r; reflexivity. Qed.

Lemma rejects_drop_other (j k : RuleKind) (p : CitizenProfile) (r : Rules) :
  j <> k -> rejects j p (drop_rule k r) = rejects j p r.
Proof. destruct j, k, r; intros H; try reflexivity; congruence. Qed.

Lemma existsb_same {A} (f g : A -> bool) (l : list A) :
  (forall x, f x = g x) -> existsb f l = existsb g l.
Proof. intros H. induction l as [|x l IH]; simpl; [|rewrite H, IH]; reflexivity. Qed.

(** C3: a rule whose profile field is null never rejects.  Alone it lets
    the profile pass, and removing it from any rule set leaves the verdict
    unchanged; conversely, a rejection is always owed to a rule that is
    present, whose field is known, and that rejects on its own. *)
Theorem null_field_rule_never_rejects (p : CitizenProfile) (rules : Rules) :
  (forall k, field_is_null p k = true ->
     _passes_filter p (only_rule k rules) = true /\
     _passes_filter p rules = _passes_filter p (drop_rule k rules)) /\
  (_passes_filter p rules = false ->
   exists k, field_is_null p k = false /\ rule_present k rules = true /\
             _passes_filter p (only_rule k rules) = false).
Proof.
  split.
  - intros k Hnull.
    assert (Hk : forall r, rejects k p r = false).
    { intros r. destruct (rejects k p r) eqn:E; [|reflexivity].
      apply rejects_known in E as [E _]. congruence. }
    split.
    + destruct (_passes_filter p (only_rule k rules)) eqn:E; [reflexivity |].
      rewrite passes_filter_rejects in E.
      apply negb_false_iff, existsb_exists in E as (j & _ & Hj).
      destruct (decide (j = k)) as [-> | Hne].
      * rewrite Hk in Hj. discriminate.
      * apply rejects_known in Hj as [_ Hj].
        destruct j, k, rules; cbn in Hj; congruence.
    + rewrite !passes_filter_rejects. f_equal. apply existsb_same.
      intros j. destruct (decide (j = k)) as [-> | Hne].
      * rewrite !Hk. reflexivity.
      * symmetry. apply rejects_drop_other, Hne.
  - intros H. rewrite passes_filter_rejects in H.
    apply negb_false_iff, existsb_exists in H as (k & _ & Hk).
    exists k. destruct (rejects_known _ _ _ Hk) as [Hf Hr].
    repeat split; try assumption.
    rewrite passes_filter_rejects. apply negb_false_iff, existsb_exists.
    exists k. split; [apply all_kinds_complete |].
    rewrite rejects_only_same. exact Hk.
Qed.

Lemma null_field_rule_never_rejects_witness :
  field_is_null empty_profile AgeMax = true /\
  _passes_filter empty_profile (only_rule AgeMax scenario_B_rules) = true /\
  _passes_filter scenario_B_profile scenario_B_rules = false /\
  exists k, field_is_null scenario_B_profile k = false /\
            rule_present k scenario_B_rules = true /\
            _passes_filter scenario_B_profile (only_rule k scenario_B_rules)
            = false.
Proof.
  split; [reflexivity |]. split.
  - apply (proj1 (null_field_rule_never_rejects empty_profile scenario_B_rules)
             AgeMax).
    reflexivity.
  - split; [reflexivity |].
    apply (proj2 (null_field_rule_never_rejects scenario_B_profile
                    scenario_B_rules)).
    reflexivity.
Defined.

(* ===================================================================== *)
(** * Properties of the relevance score *)
(* ===================================================================== *)

(** The score as a sum; the five bonuses add up to 50 at most, so the cap
    at 100 never cuts anything off. *)
Lemma relevance_score_sum (p : CitizenProfile) (s : Scheme) :
  _relevance_score p s =
    50 + (if occupation_bonus p (rules_of s) then 15 else 0)
       + (if category_bonus p (rules_of s) then 10 else 0)
       + (if gender_bonus p (rules_of s) then 10 else 0)
       + (if bpl_bonus p (rules_of s) then 10 else 0)
       + (if high_value_benefit s then 5 else 0).
Proof.
  unfold _relevance_score.
  destruct (occupation_bonus p (rules_of s)), (category_bonus p (rules_of s)),
    (gender_bonus p (rules_of s)), (bpl_bonus p (rules_of s)),
    (high_value_benefit s); reflexivity.
Qed.

Lemma bonus_mono (b b' : bool) (n : Z) :
  0 <= n -> (b = true -> b' = true) ->
  (if b then n else 0) <= (if b' then n else 0).
Proof.
  intros Hn H. destruct b, b'; try lia; specialize (H eq_refl); discriminate.
Qed.



(* ===================================================================== *)
(** * Properties of the matcher *)
(* ===================================================================== *)

Section Matcher.

Variable p : CitizenProfile.

(** ** The loop *)

Lemma candidates_loop (schemes : list Scheme) (acc : list Match) :
  fold_left
    (fun (matches : list Match) s =>
       if eligible p s
       then (matches ++ [mkMatch s (_relevance_score p s)])%list
       else matches)
    schemes acc
  = (acc ++ List.map (fun s => mkMatch s (_relevance_score p s))
                     (List.filter (eligible p) schemes))%list.
Proof.
  revert acc. induction schemes as [|s schemes IH]; intros acc; simpl.
  - rewrite app_nil_r. reflexivity.
  - rewrite IH. destruct (eligible p s); simpl; [|reflexivity].
    rewrite <- app_assoc. reflexivity.
Qed.

(** The candidates are the eligible schemes, in catalog order, each with
    its relevance score. *)
Lemma candidates_filter_map (schemes : list Scheme) :
  candidates p schemes =
    List.map (fun s => mkMatch s (_relevance_score p s))
             (List.filter (eligible p) schemes).
Proof. unfold candidates. rewrite candidates_loop. reflexivity. Qed.

Lemma candidates_length (schemes : list Scheme) :
  (length (candidates p schemes) <= length schemes)%nat.
Proof.
  rewrite candidates_filter_map, length_map. apply filter_length_le.
Qed.

Lemma in_candidates (schemes : list Scheme) (m : Match) :
  In m (candidates p schemes) <->
  In (scheme m) schemes /\ eligible p (scheme m) = true /\
  score m = _relevance_score p (scheme m).
Proof.
  rewrite candidates_filter_map, in_map_iff. split.
  - intros (s & <- & Hs). apply filter_In in Hs as [Hin He]. simpl. auto.
  - intros (Hin & He & Hsc). exists (scheme m). split.
    + destruct m as [s v]. simpl in *. congruence.
    + apply filter_In. auto.
Qed.

(** ** The sort *)

Lemma insert_desc_perm (m : Match) (l : list Match) :
  Permutation (insert_desc m l) (m :: l).
Proof.
  induction l as [|m' l IH]; simpl; [reflexivity |].
  destruct (score m' <? score m); [reflexivity |].
  rewrite IH. apply perm_swap.
Qed.

Lemma sort_loop_perm (l acc : list Match) :
  Permutation (fold_left (fun sorted m => insert_desc m sorted) l acc)
              (acc ++ l).
Proof.
  revert acc. induction l as [|m l IH]; intros acc; simpl.
  - rewrite app_nil_r. reflexivity.
  - rewrite IH, insert_desc_perm. apply Permutation_middle.
Qed.

Lemma sort_desc_perm (l : list Match) : Permutation (sort_desc l) l.
Proof. unfold sort_desc. apply (sort_loop_perm l []). Qed.

Lemma insert_desc_sorted (m : Match) (l : list Match) :
  StronglySorted desc l -> StronglySorted desc (insert_desc m l).
Proof.
  induction 1 as [|m' l Hl IH Hm']; simpl.
  - repeat constructor.
  - destruct (score m' <? score m) eqn:E.
    + apply Z.ltb_lt in E. constructor; [constructor; assumption |].
      constructor; [unfold desc; lia |].
      eapply Forall_impl; [exact Hm' |]. unfold desc. intros; lia.
    + apply Z.ltb_ge in E. constructor; [exact IH |].
      rewrite (List.Forall_forall (desc m')). intros x Hx.
      apply (Permutation_in _ (insert_desc_perm m l)) in Hx as [<- | Hx].
      * exact E.
      * rewrite List.Forall_forall in Hm'. apply Hm', Hx.
Qed.

Lemma sort_loop_sorted (l acc : list Match) :
  StronglySorted desc acc ->
  StronglySorted desc (fold_left (fun sorted m => insert_desc m sorted) l acc).
Proof.
  revert acc. induction l as [|m l IH]; intros acc Hacc; simpl.
  - exact Hacc.
  - apply IH, insert_desc_sorted, Hacc.
Qed.

Lemma sort_desc_sorted (l : list Match) : StronglySorted desc (sort_desc l).
Proof. apply sort_loop_sorted. constructor. Qed.

Lemma filter_none {A} (f : A -> bool) (l : list A) :
  (forall x, In x l -> f x = false) -> List.filter f l = [].
Proof.
  induction l as [|x l IH]; simpl; intros H; [reflexivity |].
  rewrite (H x) by auto. apply IH. auto.
Qed.

(** Stability: an entry is inserted behind every entry of the same score. *)
Lemma insert_desc_stable (v : Z) (m : Match) (l : list Match) :
  StronglySorted desc l ->
  with_score v (insert_desc m l) = (with_score v l ++ with_score v [m])%list.
Proof.
  unfold with_score.
  induction 1 as [|m' l Hl IH Hm']; simpl; [reflexivity |].
  destruct (score m' <? score m) eqn:E.
  - apply Z.ltb_lt in E. simpl.
    destruct (score m =? v) eqn:Ev.
    + apply Z.eqb_eq in Ev.
      assert (Hnone : List.filter (fun x => score x =? v) (m' :: l) = []).
      { apply filter_none.
        intros x [<- | Hx]; apply Z.eqb_neq; [lia |].
        rewrite List.Forall_forall in Hm'. specialize (Hm' x Hx).
        unfold desc in Hm'. lia. }
      simpl in Hnone. rewrite Hnone. reflexivity.
    + rewrite app_nil_r. reflexivity.
  - simpl. rewrite IH. destruct (score m' =? v); reflexivity.
Qed.

Lemma sort_loop_stable (v : Z) (l acc : list Match) :
  StronglySorted desc acc ->
  with_score v (fold_left (fun sorted m => insert_desc m sorted) l acc)
  = (with_score v acc ++ with_score v l)%list.
Proof.
  revert acc. induction l as [|m l IH]; intros acc Hacc; cbn [fold_left].
  - unfold with_score. simpl. rewrite app_nil_r. reflexivity.
  - rewrite IH by (apply insert_desc_sorted, Hacc).
    rewrite insert_desc_stable by exact Hacc.
    rewrite <- app_assoc. f_equal. unfold with_score.
    change (m :: l) with ([m] ++ l)%list. symmetry. apply List.filter_app.
Qed.

Lemma sort_desc_stable (v : Z) (l : list Match) :
  with_score v (sort_desc l) = with_score v l.
Proof. apply (sort_loop_stable v l []). constructor. Qed.

(** ** The slice *)

Lemma slice_to_prefix {A} (xs : list A) (k : Z) :
  exists rest, xs = (slice_to xs k ++ rest)%list.
Proof.
  unfold slice_to. destruct (0 <=? k);
    eexists; symmetry; apply firstn_skipn.
Qed.

Lemma slice_to_length {A} (xs : list A) (k : Z) :
  0 <= k -> Z.of_nat (length (slice_to xs k)) <= k.
Proof.
  intros Hk. unfold slice_to. apply Z.leb_le in Hk as Hk'. rewrite Hk'.
  pose proof (firstn_le_length (Z.to_nat k) xs). lia.
Qed.

Lemma slice_to_all {A} (xs : list A) (k : Z) :
  Z.of_nat (length xs) <= k -> slice_to xs k = xs.
Proof.
  intros Hk. unfold slice_to.
  assert (E : (0 <=? k) = true) by (apply Z.leb_le; lia). rewrite E.
  apply firstn_all2. lia.
Qed.

Lemma StronglySorted_prefix {A} (R : A -> A -> Prop) (l1 l2 : list A) :
  StronglySorted R (l1 ++ l2) -> StronglySorted R l1.
Proof.
  induction l1 as [|x l1 IH]; simpl; intros H; [constructor |].
  inversion H as [|? ? Hs Hf]; subst. constructor; [apply IH, Hs |].
  apply Forall_app in Hf as [Hf _]. exact Hf.
Qed.


End Matcher.

Lemma with_score_candidates (p : CitizenProfile) (v : Z) (schemes : list Scheme) :
  List.map scheme (with_score v (candidates p schemes))
  = List.filter (fun s => eligible p s && (_relevance_score p s =? v)) schemes.
Proof.
  rewrite candidates_filter_map. unfold with_score.
  induction schemes as [|s schemes IH]; simpl; [reflexivity |].
  destruct (eligible p s); simpl; [| exact IH].
  destruct (_relevance_score p s =? v); simpl; [f_equal |]; exact IH.
Qed.

(** C5: the matches come out in descending order of score, and for every
    score the returned entries carrying it are, in order, an initial segment
    of the catalog's eligible schemes with that score: entries that tie keep
    the order of the catalog. *)
Theorem match_schemes_sorted_stable (schemes : list Scheme) (p : CitizenProfile)
    (max_results : Z) :
  StronglySorted desc (match_schemes schemes p max_results) /\
  forall v, exists rest,
    List.filter (fun s => eligible p s && (_relevance_score p s =? v)) schemes
    = (List.map scheme (with_score v (match_schemes schemes p max_results))
       ++ rest)%list.
Proof.
  unfold match_schemes.
  destruct (slice_to_prefix (sort_desc (candidates p schemes)) max_results)
    as [rest E].
  split.
  - apply StronglySorted_prefix with (l2 := rest). rewrite <- E.
    apply sort_desc_sorted.
  - intros v.
    exists (List.map scheme (with_score v rest)).
    rewrite <- with_score_candidates, <- (sort_desc_stable v).
    rewrite E at 1. unfold with_score.
    rewrite List.filter_app, List.map_app. reflexivity.
Qed.




(** C7: a rule set in which no rule is present passes the filter for every
    profile, and a catalog scheme whose rule set is absent or empty is always
    among the candidates of the matcher, with its relevance score (and hence
    in the result whenever [max_results] does not cut the list). *)
Theorem universal_scheme_always_candidate (p : CitizenProfile) :
  (forall rules, (forall k, rule_present k rules = false) ->
     _passes_filter p rules = true) /\
  (forall schemes s,
     In s schemes ->
     (eligibility s = None \/
      exists r, eligibility s = Some r /\ rules_is_empty r = true) ->
     In (mkMatch s (_relevance_score p s)) (candidates p schemes) /\
     forall max_results,
       Z.of_nat (length schemes) <= max_results ->
       In (mkMatch s (_relevance_score p s))
          (match_schemes schemes p max_results)).
Proof.
  split.
  - intros rules Hnone. rewrite passes_filter_rejects.
    destruct (existsb (fun k => rejects k p rules) all_kinds) eqn:E;
      [| reflexivity].
    apply existsb_exists in E as (k & _ & Hk).
    apply rejects_known in Hk as [_ Hk]. rewrite Hnone in Hk. discriminate.
  - intros schemes s Hin Hempty.
    assert (Hc : In (mkMatch s (_relevance_score p s)) (candidates p schemes)).
    { apply in_candidates. simpl. repeat split; try assumption.
      unfold eligible, rules_of.
      destruct Hempty as [-> | (r & -> & Hr)]; simpl; [reflexivity |].
      rewrite Hr. reflexivity. }
    split; [exact Hc |].
    intros max_results Hk. unfold match_schemes.
    rewrite slice_to_all.
    + apply (Permutation_in _ (Permutation_sym (sort_desc_perm _))), Hc.
    + rewrite (Permutation_length (sort_desc_perm _)).
      pose proof (candidates_length p schemes). lia.
Qed.

Lemma universal_scheme_always_candidate_witness :
  _passes_filter scenario_B_profile no_rules = true /\
  In (mkMatch universal_scheme 50)
     (candidates scenario_B_profile
        [mkScheme "Old age pension" None (Some scenario_B_rules);
         universal_scheme]).
Proof.
  split.
  - apply (proj1 (universal_scheme_always_candidate scenario_B_profile)).
    intros k. destruct k; reflexivity.
  - apply (proj2 (universal_scheme_always_candidate scenario_B_profile)
             [mkScheme "Old age pension" None (Some scenario_B_rules);
              universal_scheme] universal_scheme).
    + simpl. tauto.
    + left. reflexivity.
Defined.

(* ===================================================================== *)
(** * Properties of the profile serialisation *)
(* ===================================================================== *)

Lemma dict_of_items_nil (k : string) : dict_of_items [] !! k = None.
Proof. reflexivity. Qed.

Lemma dict_of_items_cons_eq (k : string) (v : option Value)
    (items : list (string * option Value)) :
  dict_of_items ((k, v) :: items) !! k =
    match v with Some x => Some x | None => dict_of_items items !! k end.
Proof.
  unfold dict_of_items. destruct v as [x|]; simpl; [| reflexivity].
  apply lookup_insert_eq.
Qed.

Lemma dict_of_items_cons_ne (k k' : string) (v : option Value)
    (items : list (string * option Value)) :
  k <> k' ->
  dict_of_items ((k, v) :: items) !! k' = dict_of_items items !! k'.
Proof.
  intros Hne. unfold dict_of_items. destruct v as [x|]; simpl; [| reflexivity].
  apply lookup_insert_ne, Hne.
Qed.

(** A key of the dict is the name of a field whose value is not null. *)
Lemma dict_of_items_key (items : list (string * option Value)) (k : string)
    (v : Value) :
  dict_of_items items !! k = Some v -> In (k, Some v) items.
Proof.
  induction items as [|[k' v'] items IH]; intros H.
  - rewrite dict_of_items_nil in H. discriminate.
  - destruct (decide (k' = k)) as [-> | Hne].
    + rewrite dict_of_items_cons_eq in H. destruct v' as [x|].
      * injection H as ->. left. reflexivity.
      * right. apply IH, H.
    + rewrite dict_of_items_cons_ne in H by exact Hne. right. apply IH, H.
Qed.

(** Reading the dict at a field name: skip the entries before it, take the
    entry, and find nothing behind it. *)
Ltac read_field :=
  unfold to_dict, asdict;
  repeat (rewrite dict_of_items_cons_ne by discriminate);
  rewrite dict_of_items_cons_eq;
  repeat (rewrite dict_of_items_cons_ne by discriminate);
  rewrite dict_of_items_nil.

Lemma int_arg_to_dict (p : CitizenProfile) :
  int_arg (to_dict p) "age" = Some (age p) /\
  int_arg (to_dict p) "annual_income" = Some (annual_income p) /\
  int_arg (to_dict p) "family_members" = Some (family_members p) /\
  int_arg (to_dict p) "children_count" = Some (children_count p).
Proof.
  unfold int_arg. repeat split; read_field.
  - destruct (age p); reflexivity.
  - destruct (annual_income p); reflexivity.
  - destruct (family_members p); reflexivity.
  - destruct (children_count p); reflexivity.
Qed.

Lemma str_arg_to_dict (p : CitizenProfile) :
  str_arg (to_dict p) "gender" = Some (gender p) /\
  str_arg (to_dict p) "state" = Some (state p) /\
  str_arg (to_dict p) "district" = Some (district p) /\
  str_arg (to_dict p) "occupation" = Some (occupation p) /\
  str_arg (to_dict p) "category" = Some (category p) /\
  str_arg (to_dict p) "marital_status" = Some (marital_status p) /\
  str_arg (to_dict p) "education_level" = Some (education_level p).
Proof.
  unfold str_arg. repeat split; read_field.
  - destruct (gender p); reflexivity.
  - destruct (state p); reflexivity.
  - destruct (district p); reflexivity.
  - destruct (occupation p); reflexivity.
  - destruct (category p); reflexivity.
  - destruct (marital_status p); reflexivity.
  - destruct (education_level p); reflexivity.
Qed.

Lemma bool_arg_to_dict (p : CitizenProfile) :
  bool_arg (to_dict p) "bpl_status" = Some (bpl_status p) /\
  bool_arg (to_dict p) "disability" = Some (disability p) /\
  bool_arg (to_dict p) "land_ownership" = Some (land_ownership p) /\
  bool_arg (to_dict p) "children_in_school" = Some (children_in_school p) /\
  bool_arg (to_dict p) "pregnant_in_family" = Some (pregnant_in_family p) /\
  bool_arg (to_dict p) "senior_in_family" = Some (senior_in_family p).
Proof.
  unfold bool_arg. repeat split; read_field.
  - destruct (bpl_status p); reflexivity.
  - destruct (disability p); reflexivity.
  - destruct (land_ownership p); reflexivity.
  - destruct (children_in_school p); reflexivity.
  - destruct (pregnant_in_family p); reflexivity.
  - destruct (senior_in_family p); reflexivity.
Qed.

Lemma to_dict_keys (p : CitizenProfile) :
  map_Forall (fun k _ => k ∈ field_names) (to_dict p).
Proof.
  intros k v H. apply dict_of_items_key in H.
  apply list_elem_of_In.
  change field_names with (List.map fst (asdict p)).
  apply in_map_iff. exists (k, Some v). split; [reflexivity | exact H].
Qed.

(** C10: [to_dict] keeps exactly the fields that are not null, and building
    a profile from that dict gives the original profile back. *)
Theorem to_dict_round_trip (p : CitizenProfile) :
  (forall k v, to_dict p !! k = Some v <-> In (k, Some v) (asdict p)) /\
  CitizenProfile_init (to_dict p) = Some p.
Proof.
  split.
  - intros k v. split; [apply dict_of_items_key |].
    unfold asdict. simpl. intros H.
    repeat (destruct H as [H | H]; [injection H as <- H; read_field;
                                    rewrite H; reflexivity |]).
    destruct H.
  - unfold CitizenProfile_init.
    rewrite decide_True by apply to_dict_keys.
    destruct (int_arg_to_dict p) as (-> & -> & -> & ->).
    destruct (str_arg_to_dict p) as (-> & -> & -> & -> & -> & -> & ->).
    destruct (bool_arg_to_dict p) as (-> & -> & -> & -> & -> & ->).
    destruct p; reflexivity.
Qed.

(* ===================================================================== *)
(** * Properties of the scheme-discovery handler *)
(* ===================================================================== *)

(** Every identifier the profiler returns is a non-empty string, so the
    truthiness test of the handler is the test for a pending question. *)
Lemma next_question_truthy (p : CitizenProfile) :
  truthy_str (get_profiling_question p)
  = is_not_none (get_profiling_question p).
Proof.
  destruct (get_profiling_question p) as [q|] eqn:E; [| reflexivity].
  apply get_profiling_question_critical in E.
  destruct E as [->|[->|[->|[->|[->| ->]]]]]; reflexivity.
Qed.





(* ===================================================================== *)
(** * Further properties of the eligibility filter *)
(* ===================================================================== *)

Lemma member_true (x : string) (xs : list string) :
  member x xs = true <-> In x xs.
Proof.
  unfold member. rewrite bool_decide_eq_true. apply list_elem_of_In.
Qed.







(** Taking a rule out of a rule set never turns a pass into a rejection. *)
Theorem dropping_a_rule_keeps_passing (p : CitizenProfile) (rules : Rules)
    (k : RuleKind) :
  _passes_filter p rules = true ->
  _passes_filter p (drop_rule k rules) = true.
Proof.
  rewrite !passes_filter_rejects, !negb_true_iff. intros H.
  destruct (existsb (fun j => rejects j p (drop_rule k rules)) all_kinds) eqn:E;
    [| reflexivity].
  apply existsb_exists in E as (j & Hj & Hr).
  destruct (decide (j = k)) as [-> | Hne].
  - rewrite rejects_drop_same in Hr. discriminate.
  - rewrite rejects_drop_other in Hr by exact Hne.
    rewrite <- H. symmetry. apply existsb_exists. eauto.
Qed.

Lemma dropping_a_rule_keeps_passing_witness :
  _passes_filter scenario_A_profile scenario_A_rules = true /\
  _passes_filter scenario_A_profile (drop_rule IncomeMax scenario_A_rules) = true.
Proof.
  split; [reflexivity |].
  apply (dropping_a_rule_keeps_passing scenario_A_profile scenario_A_rules).
  reflexivity.
Defined.

(** A block that rejects a profile still rejects any later state of it. *)
Lemma rejects_extends (k : RuleKind) (p p' : CitizenProfile) (rules : Rules) :
  profile_extends p p' -> rejects k p rules = true -> rejects k p' rules = true.
Proof.
  intros (Ha & Hg & Hs & _ & Ho & Hc & Hi & Hb & Hd & Hm & Hl & _) Hk.
  pose proof (rejects_known _ _ _ Hk) as [Hnull _].
  destruct k; cbn in Hk, Hnull |- *;
    unfold rejects_age_min, rejects_age_max, rejects_gender, rejects_states,
      rejects_occupations, rejects_categories, rejects_income_max, rejects_bpl,
      rejects_disability, rejects_land, rejects_marital_status in *.
  - destruct Ha as [E | E]; [rewrite E in Hnull; discriminate |].
    rewrite <- E. exact Hk.
  - destruct Ha as [E | E]; [rewrite E in Hnull; discriminate |].
    rewrite <- E. exact Hk.
  - destruct Hg as [E | E]; [rewrite E in Hnull; discriminate |].
    rewrite <- E. exact Hk.
  - destruct Hs as [E | E]; [rewrite E in Hnull; discriminate |].
    rewrite <- E. exact Hk.
  - destruct Ho as [E | E]; [rewrite E in Hnull; discriminate |].
    rewrite <- E. exact Hk.
  - destruct Hc as [E | E]; [rewrite E in Hnull; discriminate |].
    rewrite <- E. exact Hk.
  - destruct Hi as [E | E]; [rewrite E in Hnull; discriminate |].
    rewrite <- E. exact Hk.
  - destruct Hb as [E | E]; [rewrite E in Hnull; discriminate |].
    rewrite <- E. exact Hk.
  - destruct Hd as [E | E]; [rewrite E in Hnull; discriminate |].
    rewrite <- E. exact Hk.
  - destruct Hl as [E | E]; [rewrite E in Hnull; discriminate |].
    rewrite <- E. exact Hk.
  - destruct Hm as [E | E]; [rewrite E in Hnull; discriminate |].
    rewrite <- E. exact Hk.
Qed.

(** A rejection is final: once the filter rejects a profile for a rule set,
    it rejects every later state of the profile in which the fields already
    known are unchanged. *)
Theorem rejection_is_final (p p' : CitizenProfile) (rules : Rules) :
  profile_extends p p' ->
  _passes_filter p rules = false ->
  _passes_filter p' rules = false.
Proof.
  intros Hext. rewrite !passes_filter_rejects, !negb_false_iff.
  intros H. apply existsb_exists in H as (k & Hin & Hk).
  apply existsb_exists. exists k. split; [exact Hin |].
  eapply rejects_extends; eassumption.
Qed.

Lemma rejection_is_final_witness :
  profile_extends scenario_B_profile
    (mkCitizenProfile (Some 70) (Some "male") None None None None None None
       None None None None None None None None None) /\
  _passes_filter
    (mkCitizenProfile (Some 70) (Some "male") None None None None None None
       None None None None None None None None None) scenario_B_rules = false.
Proof.
  assert (H : profile_extends scenario_B_profile
    (mkCitizenProfile (Some 70) (Some "male") None None None None None None
       None None None None None None None None None)).
  { unfold profile_extends, keeps. simpl. tauto. }
  split; [exact H |].
  apply (rejection_is_final scenario_B_profile _ scenario_B_rules H).
  reflexivity.
Defined.

(** Learning more about a citizen never lowers a scheme's relevance score. *)
Theorem score_grows_with_profile (p p' : CitizenProfile) (s : Scheme) :
  profile_extends p p' ->
  _relevance_score p s <= _relevance_score p' s.
Proof.
  intros (_ & Hg & _ & _ & Ho & Hc & _ & Hb & _).
  rewrite !relevance_score_sum.
  assert (H1 : occupation_bonus p (rules_of s) = true ->
               occupation_bonus p' (rules_of s) = true).
  { unfold occupation_bonus. destruct Ho as [E | E]; rewrite E.
    - destruct (rule_occupations (rules_of s)); discriminate.
    - trivial. }
  assert (H2 : category_bonus p (rules_of s) = true ->
               category_bonus p' (rules_of s) = true).
  { unfold category_bonus. destruct Hc as [E | E]; rewrite E.
    - destruct (rule_categories (rules_of s)); discriminate.
    - trivial. }
  assert (H3 : gender_bonus p (rules_of s) = true ->
               gender_bonus p' (rules_of s) = true).
  { unfold gender_bonus. destruct Hg as [E | E]; rewrite E.
    - destruct (rule_gender (rules_of s)); discriminate.
    - trivial. }
  assert (H4 : bpl_bonus p (rules_of s) = true ->
               bpl_bonus p' (rules_of s) = true).
  { unfold bpl_bonus. destruct Hb as [E | E]; rewrite E.
    - rewrite andb_false_r. discriminate.
    - trivial. }
  pose proof (bonus_mono _ _ 15 ltac:(lia) H1).
  pose proof (bonus_mono _ _ 10 ltac:(lia) H2).
  pose proof (bonus_mono _ _ 10 ltac:(lia) H3).
  pose proof (bonus_mono _ _ 10 ltac:(lia) H4).
  lia.
Qed.

Lemma score_grows_with_profile_witness :
  _relevance_score empty_profile
    (mkScheme "PM-KISAN" None (Some scenario_A_rules))
  <= _relevance_score scenario_A_profile
       (mkScheme "PM-KISAN" None (Some scenario_A_rules)).
Proof.
  apply (score_grows_with_profile empty_profile scenario_A_profile).
  unfold profile_extends, keeps. simpl. tauto.
Defined.

(* ===================================================================== *)
(** * Further properties of the matcher *)
(* ===================================================================== *)

Lemma StronglySorted_app_order {A} (R : A -> A -> Prop) (l1 l2 : list A) :
  StronglySorted R (l1 ++ l2) ->
  forall x y, In x l1 -> In y l2 -> R x y.
Proof.
  induction l1 as [|a l1 IH]; simpl; intros H x y Hx Hy; [destruct Hx |].
  inversion H as [|? ? Hs Hf]; subst.
  destruct Hx as [<- | Hx].
  - rewrite List.Forall_forall in Hf. apply Hf, in_or_app. right. exact Hy.
  - eapply IH; eassumption.
Qed.

(** Cutting the list keeps the best: the candidates split into the returned
    matches and the ones left out, and no candidate left out scores higher
    than a returned one. *)
Theorem match_schemes_keeps_best (schemes : list Scheme) (p : CitizenProfile)
    (max_results : Z) :
  exists left_out,
    Permutation (candidates p schemes)
                (match_schemes schemes p max_results ++ left_out) /\
    forall m m', In m (match_schemes schemes p max_results) ->
                 In m' left_out -> score m' <= score m.
Proof.
  unfold match_schemes.
  destruct (slice_to_prefix (sort_desc (candidates p schemes)) max_results)
    as [rest E].
  exists rest. split.
  - rewrite <- E. symmetry. apply sort_desc_perm.
  - intros m m' Hm Hm'.
    pose proof (sort_desc_sorted (candidates p schemes)) as Hs.
    rewrite E in Hs.
    exact (StronglySorted_app_order desc _ _ Hs m m' Hm Hm').
Qed.

(** For a non-negative limit the matcher returns exactly as many entries as
    there are eligible schemes, up to the limit; and a larger limit only
    appends to the result of a smaller one. *)
Theorem match_schemes_length_and_growth (schemes : list Scheme)
    (p : CitizenProfile) (k k' : Z) :
  0 <= k -> k <= k' ->
  length (match_schemes schemes p k)
  = Nat.min (Z.to_nat k) (length (List.filter (eligible p) schemes)) /\
  exists more,
    match_schemes schemes p k' = (match_schemes schemes p k ++ more)%list.
Proof.
  intros Hk Hk'. unfold match_schemes, slice_to.
  assert (E : (0 <=? k) = true) by (apply Z.leb_le; lia).
  assert (E' : (0 <=? k') = true) by (apply Z.leb_le; lia).
  rewrite E, E'. split.
  - rewrite length_firstn, (Permutation_length (sort_desc_perm _)).
    rewrite candidates_filter_map, length_map. reflexivity.
  - exists (take (Z.to_nat k' - Z.to_nat k)
                 (drop (Z.to_nat k) (sort_desc (candidates p schemes)))).
    rewrite take_take_drop. f_equal. lia.
Qed.

Lemma match_schemes_length_and_growth_witness :
  length (match_schemes [universal_scheme; universal_scheme;
                          mkScheme "Old age pension" None (Some scenario_B_rules)]
                        scenario_B_profile 1) = 1%nat.
Proof.
  apply (proj1 (match_schemes_length_and_growth
                  [universal_scheme; universal_scheme;
                   mkScheme "Old age pension" None (Some scenario_B_rules)]
                  scenario_B_profile 1 7 ltac:(lia) ltac:(lia))).
Defined.

(* ===================================================================== *)
(** * Further properties of the profiler *)
(* ===================================================================== *)

(** The completeness score lies in [0,1]; it is 0 exactly when none of the
    six critical fields is known and 1 exactly when all six are. *)
Theorem completeness_score_range (p : CitizenProfile) :
  (0 <= completeness_score p)%Q /\ (completeness_score p <= 1)%Q /\
  ((completeness_score p == 0)%Q <->
   age p = None /\ gender p = None /\ state p = None /\ occupation p = None /\
   category p = None /\ annual_income p = None) /\
  ((completeness_score p == 1)%Q <->
   age p <> None /\ gender p <> None /\ state p <> None /\
   occupation p <> None /\ category p <> None /\ annual_income p <> None).
Proof.
  destruct p as [a g s d o c i b di m lo ed fm cc cs pf sf].
  destruct a, g, s, o, c, i; cbn; unfold Qle, Qeq; cbn;
    repeat split; intros; try lia; try congruence;
    repeat match goal with H : _ /\ _ |- _ => destruct H end;
    congruence.
Qed.

(** The profiler stops asking exactly when at least five of the six
    critical fields are known; otherwise it names a critical field that is
    still null. *)
Theorem profiling_stops_at_five (p : CitizenProfile) :
  (get_profiling_question p = None <-> (5 <= filled p)%nat) /\
  (forall q, get_profiling_question p = Some q ->
     (filled p <= 4)%nat /\
     In (q, false) (firstn 6 (priority_order p))).
Proof.
  profile_cases p; cbn; split;
    try (split; intros; try discriminate; try lia; reflexivity);
    intros q [= <-]; (split; [lia | cbn; tauto]).
Qed.

(* ===================================================================== *)
(** * Further properties of the scheme-discovery handler *)
(* ===================================================================== *)

(** A table with the two entries ["hi"] and ["en"], read with the English
    entry as default. *)
Lemma two_language_lookup (h e language : string) :
  language <> "hi" ->
  default e ((list_to_map [("hi", h); ("en", e)] : gmap string string)
               !! language) = e.
Proof.
  intros Hhi. unfold list_to_map. cbn [foldr fst snd].
  rewrite lookup_insert_ne by congruence.
  destruct (decide (language = "en")) as [-> | Hen].
  - rewrite lookup_insert_eq. reflexivity.
  - rewrite lookup_insert_ne by congruence. reflexivity.
Qed.

(** Every entry of the question table has exactly the two languages. *)
Lemma question_table_shape (q : string) :
  In q question_ids ->
  exists h e,
    PROFILE_QUESTIONS !! q
    = Some (list_to_map [("hi", h); ("en", e)] : gmap string string).
Proof.
  intros H. simpl in H.
  repeat (destruct H as [<- | H];
          [eexists; eexists; unfold PROFILE_QUESTIONS;
           unfold list_to_map at 1; cbn [foldr fst snd];
           repeat (rewrite lookup_insert_ne by discriminate);
           rewrite lookup_insert_eq; reflexivity |]).
  destruct H.
Qed.

Lemma question_text_shape (q language : string) :
  In q question_ids ->
  exists h e,
    question_text q language
    = Ok (default e ((list_to_map [("hi", h); ("en", e)] : gmap string string)
                       !! language)).
Proof.
  intros H. destruct (question_table_shape q H) as (h & e & E).
  exists h, e. unfold question_text, index. rewrite E. cbn [bind default].
  assert (En : (list_to_map [("hi", h); ("en", e)] : gmap string string)
                 !! "en" = Some e).
  { unfold list_to_map. cbn [foldr fst snd].
    rewrite lookup_insert_ne by discriminate. apply lookup_insert_eq. }
  rewrite En. reflexivity.
Qed.

(** The test of the handler in terms of the number of known critical
    fields. *)
Lemma asks_iff_filled (p : CitizenProfile) :
  truthy_str (get_profiling_question p)
  && score_lt (completeness_score p) (1 # 2) = true
  <-> (filled p <= 2)%nat.
Proof.
  rewrite next_question_truthy.
  profile_cases p; cbn; split; intros; try discriminate; try lia; reflexivity.
Qed.

Lemma question_id_known (p : CitizenProfile) (q : string) :
  get_profiling_question p = Some q -> In q question_ids.
Proof.
  intros H. apply get_profiling_question_critical in H.
  destruct H as [->|[->|[->|[->|[->| ->]]]]]; simpl; tauto.
Qed.

(** The handler asks a profiling question exactly when at most two of the
    six critical fields are known; from three known fields on it always goes
    to matching. *)
Theorem handler_asks_below_three_fields (schemes : list Scheme)
    (session : Session) (language : string) :
  (exists text,
     _handle_scheme_discovery schemes session language
     = Ok (session, AskQuestion text))
  <-> (filled (profile session) <= 2)%nat.
Proof.
  rewrite <- asks_iff_filled. unfold _handle_scheme_discovery.
  destruct (truthy_str (get_profiling_question (profile session))
            && score_lt (completeness_score (profile session)) (1 # 2)) eqn:E.
  - split; [reflexivity | intros _].
    destruct (get_profiling_question (profile session)) as [q|] eqn:Eq;
      [| discriminate E].
    destruct (question_text_shape q language (question_id_known _ _ Eq))
      as (h & e & Ht).
    change (default "" (Some q)) with q. rewrite Ht. cbn [bind].
    destruct (Qeq_bool (completeness_score (profile session)) 0).
    + destruct (index intro "en") as [txt|key] eqn:Ei.
      * cbn [bind]. eauto.
      * vm_compute in Ei. discriminate Ei.
    + eauto.
  - split; [| discriminate].
    intros [text H].
    destruct (summarise (match_schemes schemes (profile session)
                           default_max_results)); simpl in H; discriminate H.
Qed.

(** Only Hindi has its own texts: for every other language code the
    question the handler asks is word for word the English one. *)
Theorem handler_question_falls_back_to_english (schemes : list Scheme)
    (session : Session) (language : string) :
  (filled (profile session) <= 2)%nat ->
  language <> "hi" ->
  _handle_scheme_discovery schemes session language
  = _handle_scheme_discovery schemes session "en".
Proof.
  intros Hf Hhi. apply asks_iff_filled in Hf.
  unfold _handle_scheme_discovery. rewrite Hf.
  destruct (get_profiling_question (profile session)) as [q|] eqn:Eq;
    [| discriminate Hf].
  change (default "" (Some q)) with q.
  destruct (question_table_shape q (question_id_known _ _ Eq)) as (h & e & E).
  assert (Ht : forall l, l <> "hi" -> question_text q l = Ok e).
  { intros l Hl. unfold question_text, index. rewrite E. cbn [bind].
    assert (En : (list_to_map [("hi", h); ("en", e)] : gmap string string)
                   !! "en" = Some e).
    { unfold list_to_map. cbn [foldr fst snd].
      rewrite lookup_insert_ne by discriminate. apply lookup_insert_eq. }
    rewrite En. cbn [bind]. cbn [default].
    f_equal. apply (two_language_lookup h e l Hl). }
  rewrite (Ht language Hhi), (Ht "en") by discriminate. cbn [bind].
  destruct (Qeq_bool (completeness_score (profile session)) 0).
  - destruct (index intro "en") as [txt|key] eqn:Ei; [| reflexivity].
    cbn [bind]. unfold index in Ei.
    assert (Hen : intro !! "en" = Some txt).
    { destruct (intro !! "en") as [t|]; [| discriminate Ei].
      injection Ei as ->. reflexivity. }
    assert (Hi : default txt (intro !! language) = default txt (intro !! "en")).
    { rewrite Hen. destruct (decide (language = "en")) as [-> | Hne].
      - rewrite Hen. reflexivity.
      - unfold intro, list_to_map. cbn [foldr fst snd].
        rewrite !lookup_insert_ne by congruence. reflexivity. }
    rewrite Hi. reflexivity.
  - destruct (String.eqb_spec language "hi") as [-> | _]; [congruence |].
    reflexivity.
Qed.

Lemma handler_question_falls_back_to_english_witness :
  _handle_scheme_discovery [universal_scheme]
    (mkSession "s1" None "ta" "scheme_discovery" age_only_profile []) "ta"
  = _handle_scheme_discovery [universal_scheme]
      (mkSession "s1" None "ta" "scheme_discovery" age_only_profile []) "en".
Proof.
  apply (handler_question_falls_back_to_english [universal_scheme]
           (mkSession "s1" None "ta" "scheme_discovery" age_only_profile [])
           "ta").
  - vm_compute. lia.
  - discriminate.
Defined.

(* ===================================================================== *)
(** * Properties of sessions *)
(* ===================================================================== *)

Lemma slice_from_last {A} (xs : list A) (n : Z) :
  1 <= n ->
  slice_from xs (- n) = drop (length xs - Z.to_nat n) xs.
Proof.
  intros Hn. unfold slice_from.
  assert (E : (0 <=? - n) = false) by (apply Z.leb_gt; lia).
  rewrite E. f_equal. lia.
Qed.

(** For [n >= 1], [get_recent_history(n)] is the tail of the log: the last
    [n] messages, or all of them when the log is shorter. *)
Theorem recent_history_is_tail (s : SessionState) (n : Z) :
  1 <= n ->
  length (get_recent_history s n)
  = Nat.min (Z.to_nat n) (length (conversation_history s)) /\
  exists earlier,
    conversation_history s = (earlier ++ get_recent_history s n)%list.
Proof.
  intros Hn. unfold get_recent_history. rewrite slice_from_last by exact Hn.
  split.
  - rewrite length_drop. lia.
  - eexists. symmetry. apply take_drop.
Qed.

Lemma recent_history_is_tail_witness :
  length (get_recent_history example_session 2) = 2%nat.
Proof.
  exact (proj1 (recent_history_is_tail example_session 2 ltac:(lia))).
Defined.

(** For [n = 0] the slice [[-0:]] is the whole log, not the empty list, and
    for a negative [n] the first [-n] messages are left out. *)
Theorem recent_history_non_positive (s : SessionState) (n : Z) :
  n <= 0 ->
  get_recent_history s n = drop (Z.to_nat (- n)) (conversation_history s) /\
  (n = 0 -> get_recent_history s n = conversation_history s).
Proof.
  intros Hn. unfold get_recent_history, slice_from.
  assert (E : (0 <=? - n) = true) by (apply Z.leb_le; lia).
  rewrite E. split; [reflexivity |]. intros ->. reflexivity.
Qed.

Lemma recent_history_non_positive_witness :
  get_recent_history example_session 0 = conversation_history example_session.
Proof.
  exact (proj2 (recent_history_non_positive example_session 0 ltac:(lia))
               eq_refl).
Defined.

(** [add_message] appends exactly one message and leaves the earlier ones,
    the session fields and [created_at] alone; the message is then the most
    recent one, and the last [n+1] messages are the former last [n] followed
    by it. *)
Theorem add_message_appends (s : SessionState) (r c : string) (t1 t2 : Q)
    (n : Z) :
  1 <= n ->
  conversation_history (add_message s r c t1 t2)
  = (conversation_history s ++ [mkMessage r c t1])%list /\
  core (add_message s r c t1 t2) = core s /\
  created_at (add_message s r c t1 t2) = created_at s /\
  updated_at (add_message s r c t1 t2) = t2 /\
  get_recent_history (add_message s r c t1 t2) 1 = [mkMessage r c t1] /\
  get_recent_history (add_message s r c t1 t2) (n + 1)
  = (get_recent_history s n ++ [mkMessage r c t1])%list.
Proof.
  intros Hn. repeat split.
  - unfold get_recent_history. rewrite slice_from_last by lia. simpl.
    rewrite length_app. simpl.
    replace (length (conversation_history s) + 1 - Z.to_nat 1)%nat
      with (length (conversation_history s)) by lia.
    rewrite drop_app_length. reflexivity.
  - unfold get_recent_history. rewrite !slice_from_last by lia. simpl.
    rewrite length_app. simpl.
    replace (length (conversation_history s) + 1 - Z.to_nat (n + 1))%nat
      with (length (conversation_history s) - Z.to_nat n)%nat by lia.
    apply drop_app_le. lia.
Qed.

Lemma add_message_appends_witness :
  get_recent_history (add_message example_session "assistant" "ji" 1 2) 1
  = [mkMessage "assistant" "ji" 1].
Proof.
  exact (proj1 (proj2 (proj2 (proj2 (proj2
           (add_message_appends example_session "assistant" "ji" 1 2 1
              ltac:(lia))))))).
Defined.

Lemma int_of_inject_Z (z : Z) : int_of (inject_Z z) = z.
Proof. unfold int_of. simpl. apply Z.quot_1_r. Qed.

Lemma slice_from_last_twice {A} (xs : list A) (n : Z) :
  1 <= n -> slice_from (slice_from xs (- n)) (- n) = slice_from xs (- n).
Proof.
  intros Hn. rewrite (slice_from_last (slice_from xs (- n))) by exact Hn.
  rewrite slice_from_last by exact Hn. rewrite length_drop.
  replace (length xs - (length xs - Z.to_nat n) - Z.to_nat n)%nat with 0%nat
    by lia.
  reflexivity.
Qed.

Lemma profile_init_to_dict (p : CitizenProfile) :
  CitizenProfile_init (to_dict p) = Some p.
Proof.
  unfold CitizenProfile_init.
  rewrite decide_True by apply to_dict_keys.
  destruct (int_arg_to_dict p) as (-> & -> & -> & ->).
  destruct (str_arg_to_dict p) as (-> & -> & -> & -> & -> & -> & ->).
  destruct (bool_arg_to_dict p) as (-> & -> & -> & -> & -> & ->).
  destruct p; reflexivity.
Qed.

(** Saving and reloading: [from_dict] never fails on the output of
    [to_dict]; it gives the session back with the log cut to its last 20
    messages and the two time stamps truncated to whole seconds, and saving
    that session again gives the same dict. *)
Theorem session_round_trip (s : SessionState) (t1 t2 : Q) :
  let reloaded :=
    mkSessionState (core s)
                   (slice_from (conversation_history s) (-20))
                   (inject_Z (int_of (created_at s)))
                   (inject_Z (int_of (updated_at s))) in
  Session_from_dict (Session_to_dict s) t1 t2 = inr reloaded /\
  Session_to_dict reloaded = Session_to_dict s.
Proof.
  split.
  - unfold Session_from_dict, Session_to_dict.
    cbn [d_profile default from_option id].
    rewrite profile_init_to_dict.
    cbn [d_session_id d_user_id d_language d_current_pillar
         d_conversation_history d_matched_schemes d_created_at d_updated_at
         default from_option id].
    destruct s as [[sid uid lang pillar p ms] h c u]. reflexivity.
  - unfold Session_to_dict.
    cbn [core conversation_history created_at updated_at].
    rewrite !int_of_inject_Z.
    pose proof (slice_from_last_twice (conversation_history s) 20
                  ltac:(lia)) as Hs.
    change (- (20)) with (Z.neg 20) in Hs. rewrite Hs. reflexivity.
Qed.

(* ===================================================================== *)
(** * Properties of scam detection *)
(* ===================================================================== *)




Lemma scam_dict_lookups (hi en : string) :
  let d : gmap string Value :=
    list_to_map [ ("is_scam", VBool true); ("alert_hi", VStr hi);
                  ("alert_en", VStr en) ] in
  d !! "is_scam" = Some (VBool true) /\
  d !! "alert_hi" = Some (VStr hi) /\
  d !! "alert_en" = Some (VStr en).
Proof.
  unfold list_to_map. cbn [foldr fst snd].
  split; [apply lookup_insert_eq | split].
  - rewrite lookup_insert_ne by discriminate. apply lookup_insert_eq.
  - rewrite !lookup_insert_ne by discriminate. apply lookup_insert_eq.
Qed.



Lemma alert_key_hi (language : string) :
  "alert_hi" = "alert_" ++ language <-> language = "hi".
Proof.
  change ("alert_" ++ language) with ("alert_" +:+ language). cbn.
  split; [intros [= ->] | intros ->]; reflexivity.
Qed.

Lemma alert_key_en (language : string) :
  "alert_en" = "alert_" ++ language <-> language = "en".
Proof.
  change ("alert_" ++ language) with ("alert_" +:+ language). cbn.
  split; [intros [= ->] | intros ->]; reflexivity.
Qed.

(** When the message is flagged, [handle_financial_query] answers with the
    alert itself and does not consult the text-generation service: the Hindi
    alert for the language ["hi"], the English alert for every other
    language; when it is not flagged, the message goes to the service. *)
Theorem scam_alert_language (user_message : string) (p : CitizenProfile)
    (language : string) :
  (detect_scam user_message !! "is_scam" = Some (VBool true) ->
   exists hi en,
     detect_scam user_message !! "alert_hi" = Some (VStr hi) /\
     detect_scam user_message !! "alert_en" = Some (VStr en) /\
     handle_financial_query user_message p language
     = Ok (ScamAlert (VStr (if String.eqb language "hi" then hi else en)))) /\
  (detect_scam user_message !! "is_scam" <> Some (VBool true) ->
   handle_financial_query user_message p language
   = Ok (FinancialAdvice user_message p language)).
Proof.
  unfold handle_financial_query, detect_scam.
  destruct (first_pattern SCAM_PATTERNS (lower user_message)) as [pt|] eqn:E.
  - destruct (scam_dict_lookups (alert_hi pt) (alert_en pt)) as (H1 & H2 & H3).
    cbv zeta in H1, H2, H3.
    split; [intros _ | intros H; congruence].
    exists (alert_hi pt), (alert_en pt). repeat split; try assumption.
    unfold index. rewrite H1. cbn [bind truthy_value]. rewrite H3.
    cbn [bind]. do 2 f_equal.
    destruct (String.eqb_spec language "hi") as [-> | Hhi].
    + change ("alert_" ++ "hi") with "alert_hi". rewrite H2. reflexivity.
    + unfold list_to_map. cbn [foldr fst snd].
      rewrite lookup_insert_ne by (simpl; discriminate).
      rewrite lookup_insert_ne by (rewrite alert_key_hi; exact Hhi).
      destruct (decide (language = "en")) as [-> | Hen].
      * change ("alert_" ++ "en") with "alert_en".
        rewrite lookup_insert_eq. reflexivity.
      * rewrite lookup_insert_ne by (rewrite alert_key_en; exact Hen).
        reflexivity.
  - split; [intros H; vm_compute in H; discriminate H | intros _].
    reflexivity.
Qed.

Lemma scam_alert_language_witness :
  exists hi en,
    detect_scam "Please share OTP" !! "alert_hi" = Some (VStr hi) /\
    detect_scam "Please share OTP" !! "alert_en" = Some (VStr en) /\
    handle_financial_query "Please share OTP" empty_profile "ta"
    = Ok (ScamAlert (VStr (if String.eqb "ta" "hi" then hi else en))).
Proof.
  apply (proj1 (scam_alert_language "Please share OTP" empty_profile "ta")).
  vm_compute. reflexivity.
Defined.

(* ===================================================================== *)
(** * Properties of profile updates *)
(* ===================================================================== *)

(** Walking down the chain of name tests of [getattr_field] for a name
    [k']. *)
Ltac walk_names k' :=
  repeat match goal with
         | |- context [String.eqb k' ?s] =>
             let E := fresh "E" in
             destruct (String.eqb k' s) eqn:E;
             [apply String.eqb_eq in E; subst k'; reflexivity
             | cbv beta iota]
         end;
  try reflexivity.

(** What [setattr] does, seen through [getattr]: the named field has the
    new value, every other field is as before. *)
Lemma setattr_field_spec (p p' : CitizenProfile) (k : string) (v : Value) :
  setattr_field p k v = Some p' ->
  forall k', getattr_field p' k'
             = if String.eqb k' k then Some v else getattr_field p k'.
Proof.
  unfold setattr_field. destruct v;
    repeat match goal with
           | |- context [String.eqb k ?s] =>
               destruct (String.eqb_spec k s) as [-> | _];
               [intros [= <-] k'; unfold getattr_field;
                cbn [age gender state district occupation category
                     annual_income bpl_status disability marital_status
                     land_ownership education_level family_members
                     children_count children_in_school pregnant_in_family
                     senior_in_family];
                walk_names k'
               |]
           end;
    intros H; discriminate H.
Qed.


Lemma member_field_names (k : string) :
  member k field_names = true <-> In k field_names.
Proof. apply member_true. Qed.

Lemma update_step_spec (p p' : CitizenProfile)
    (item : string * option Value) :
  update_step p item = Some p' ->
  forall k', In k' field_names ->
    getattr_field p' k'
    = match (if String.eqb (fst item) k' then snd item else None) with
      | Some v => Some v
      | None => getattr_field p k'
      end.
Proof.
  destruct item as [k [v|]]; unfold update_step; cbn [fst snd].
  - destruct (member k field_names) eqn:M.
    + intros H k' _. rewrite (setattr_field_spec _ _ _ _ H k').
      rewrite (String.eqb_sym k' k). destruct (String.eqb k k'); reflexivity.
    + destruct (other_attribute k); [discriminate |].
      intros [= <-] k' Hk'.
      destruct (String.eqb_spec k k') as [-> | _]; [| reflexivity].
      apply member_field_names in Hk'. congruence.
  - intros [= <-] k' _. destruct (String.eqb k k'); reflexivity.
Qed.

(** The outcome of the loop, field by field: the last value that is not
    null among the updates for the field, and the old value when there is
    none.  Null values, and names that are no attribute of the profile,
    change nothing. *)
Theorem updates_last_value_wins (p p' : CitizenProfile)
    (items : list (string * option Value)) :
  apply_profile_updates p items = Some p' ->
  forall k, In k field_names ->
    getattr_field p' k
    = match latest_value k items with
      | Some v => Some v
      | None => getattr_field p k
      end.
Proof.
  revert p. induction items as [|item rest IH]; intros p; simpl.
  - intros [= <-] k _. reflexivity.
  - destruct (update_step p item) as [p1|] eqn:E; [| discriminate].
    intros H k Hk. rewrite (IH _ H k Hk).
    destruct (latest_value k rest); [reflexivity |].
    apply (update_step_spec _ _ _ E k Hk).
Qed.

Lemma updates_last_value_wins_witness :
  apply_profile_updates age_only_profile
    [ ("age", Some (VInt 36)); ("state", Some (VStr "Bihar"));
      ("age", None); ("nickname", Some (VStr "Munni")) ]
  = Some (mkCitizenProfile (Some 36) None (Some "Bihar") None None None None
            None None None None None None None None None None) /\
  getattr_field
    (mkCitizenProfile (Some 36) None (Some "Bihar") None None None None
       None None None None None None None None None None) "age"
  = Some (VInt 36).
Proof.
  assert (H : apply_profile_updates age_only_profile
    [ ("age", Some (VInt 36)); ("state", Some (VStr "Bihar"));
      ("age", None); ("nickname", Some (VStr "Munni")) ]
  = Some (mkCitizenProfile (Some 36) None (Some "Bihar") None None None None
            None None None None None None None None None None))
    by (vm_compute; reflexivity).
  split; [exact H |].
  exact (updates_last_value_wins _ _ _ H "age" ltac:(simpl; tauto)).
Defined.




Lemma fmap_VInt_inj (x y : option Z) : VInt <$> x = VInt <$> y -> x = y.
Proof. destruct x, y; simpl; congruence. Qed.

Lemma fmap_VStr_inj (x y : option string) : VStr <$> x = VStr <$> y -> x = y.
Proof. destruct x, y; simpl; congruence. Qed.

Lemma fmap_VBool_inj (x y : option bool) : VBool <$> x = VBool <$> y -> x = y.
Proof. destruct x, y; simpl; congruence. Qed.

(** Reading one field of two profiles that agree on every field name. *)
Ltac same_field H k :=
  let Hk := fresh "Hk" in
  pose proof (H k ltac:(simpl; tauto)) as Hk; cbn in Hk;
  first [apply fmap_VInt_inj in Hk | apply fmap_VStr_inj in Hk
        | apply fmap_VBool_inj in Hk];
  subst.

(** A profile is determined by what [getattr] returns for its fields. *)
Lemma getattr_field_ext (p q : CitizenProfile) :
  (forall k, In k field_names -> getattr_field p k = getattr_field q k) ->
  p = q.
Proof.
  destruct p, q. intros H.
  same_field H "age". same_field H "gender". same_field H "state".
  same_field H "district". same_field H "occupation".
  same_field H "category". same_field H "annual_income".
  same_field H "bpl_status". same_field H "disability".
  same_field H "marital_status". same_field H "land_ownership".
  same_field H "education_level". same_field H "family_members".
  same_field H "children_count". same_field H "children_in_school".
  same_field H "pregnant_in_family". same_field H "senior_in_family".
  reflexivity.
Qed.

(** Whether [setattr] stays within the typed record depends on the name
    and the value only. *)
Lemma setattr_field_total (p q : CitizenProfile) (k : string) (v : Value) :
  is_Some (setattr_field p k v) -> is_Some (setattr_field q k v).
Proof.
  unfold setattr_field. destruct v;
    repeat match goal with
           | |- context [String.eqb k ?s] =>
               destruct (String.eqb k s); [intros _; eauto |]
           end;
    intros [? H]; discriminate H.
Qed.

Lemma update_step_total (p q : CitizenProfile)
    (item : string * option Value) :
  is_Some (update_step p item) -> is_Some (update_step q item).
Proof.
  unfold update_step. destruct (snd item) as [v|]; [| eauto].
  destruct (member (fst item) field_names); [apply setattr_field_total |].
  destruct (other_attribute (fst item)); [| eauto].
  intros [? H]; discriminate H.
Qed.

Lemma apply_profile_updates_total (items : list (string * option Value)) :
  Forall (fun item => is_Some (update_step empty_profile item)) items ->
  forall p, is_Some (apply_profile_updates p items).
Proof.
  induction 1 as [|item rest Hitem _ IH]; intros p; simpl; [eauto |].
  destruct (update_step_total empty_profile p item Hitem) as [p1 ->].
  apply IH.
Qed.

Lemma asdict_items_typed (q : CitizenProfile) :
  Forall (fun item => is_Some (update_step empty_profile item)) (asdict q).
Proof.
  unfold asdict.
  repeat (apply List.Forall_cons;
          [match goal with
           | |- context [fmap _ ?x] => destruct x; vm_compute; eauto
           end |]).
  apply List.Forall_nil.
Qed.

Lemma latest_value_asdict (q : CitizenProfile) (k : string) :
  In k field_names ->
  match latest_value k (asdict q) with
  | Some v => Some v
  | None => getattr_field empty_profile k
  end = getattr_field q k.
Proof.
  simpl. intros H.
  repeat (destruct H as [<- | H];
          [cbn;
           match goal with
           | |- context [fmap _ ?x] => destruct x; reflexivity
           end |]).
  destruct H.
Qed.

(** Read back through the update loop, the fields of a profile rebuild it:
    applying [asdict(q).items()] (null fields included) to an empty profile
    succeeds and gives [q]. *)
Theorem updates_rebuild_profile (q : CitizenProfile) :
  apply_profile_updates empty_profile (asdict q) = Some q.
Proof.
  destruct (apply_profile_updates_total (asdict q) (asdict_items_typed q)
              empty_profile) as [p' H].
  rewrite H. f_equal. apply getattr_field_ext. intros k Hk.
  rewrite (updates_last_value_wins _ _ _ H k Hk).
  apply latest_value_asdict, Hk.
Qed.

(* ===================================================================== *)
(** * The pieces together *)
(* ===================================================================== *)

(** The stored summary follows the matches entry by entry. *)
Lemma summarise_scores (matches : list Match) (summary : list MatchedScheme) :
  summarise matches = Ok summary ->
  List.map ms_score summary = List.map score matches /\
  List.map ms_name summary = List.map (fun m => name (scheme m)) matches /\
  List.map (fun e => Some (ms_benefit e)) summary
  = List.map (fun m => benefit_amount (scheme m)) matches.
Proof.
  revert summary. induction matches as [|m matches IH]; intros summary; simpl.
  - intros [= <-]. auto.
  - destruct (benefit_amount (scheme m)) as [b|] eqn:Eb; [| discriminate].
    destruct (summarise matches) as [tl|] eqn:Et; [| discriminate].
    simpl. intros [= <-]. destruct (IH tl eq_refl) as (H1 & H2 & H3).
    simpl. rewrite H1, H2, H3. auto.
Qed.

Lemma StronglySorted_map_score (ms : list Match) :
  StronglySorted desc ms ->
  StronglySorted (fun a b : Z => b <= a) (List.map score ms).
Proof.
  induction 1 as [|m ms Hs IH Hf]; simpl; constructor; [exact IH |].
  rewrite List.Forall_forall in *. intros z Hz.
  apply in_map_iff in Hz as (m' & <- & Hm'). apply (Hf m' Hm').
Qed.

(** Whenever the handler goes to matching and returns, the session holds at
    most seven matched schemes, in descending order of score, each with the
    name, benefit text and score of the match at the same position; the
    other session fields are untouched. *)
Theorem handler_stores_ranked_matches (schemes : list Scheme)
    (session session' : Session) (language : string) (matches : list Match)
    (p : CitizenProfile) (l : string) :
  _handle_scheme_discovery schemes session language
  = Ok (session', ExplainSchemes matches p l) ->
  matches = match_schemes schemes (profile session) default_max_results /\
  (length (matched_schemes session') <= 7)%nat /\
  StronglySorted (fun a b : Z => b <= a)
                 (List.map ms_score (matched_schemes session')) /\
  List.map ms_score (matched_schemes session') = List.map score matches /\
  List.map ms_name (matched_schemes session')
  = List.map (fun m => name (scheme m)) matches /\
  List.map (fun e => Some (ms_benefit e)) (matched_schemes session')
  = List.map (fun m => benefit_amount (scheme m)) matches /\
  session' = set_matched_schemes session (matched_schemes session').
Proof.
  unfold _handle_scheme_discovery.
  destruct (truthy_str (get_profiling_question (profile session))
            && score_lt (completeness_score (profile session)) (1 # 2)).
  - destruct (question_text _ language) as [question|]; cbn [bind];
      [| discriminate].
    destruct (Qeq_bool _ 0).
    + destruct (index intro "en"); cbn [bind]; discriminate.
    + discriminate.
  - set (ms := match_schemes schemes (profile session) default_max_results).
    destruct (summarise ms) as [summary|] eqn:Es; cbn [bind]; [| discriminate].
    intros [= <- <- _ _].
    destruct (summarise_scores ms summary Es) as (H1 & H2 & H3).
    cbn [matched_schemes set_matched_schemes].
    assert (Hlen : (length ms <= 7)%nat).
    { pose proof (slice_to_length
                    (sort_desc (candidates (profile session) schemes)) 7
                    ltac:(lia)) as H.
      unfold ms, match_schemes, default_max_results. lia. }
    assert (Hsorted : StronglySorted desc ms).
    { unfold ms, match_schemes.
      destruct (slice_to_prefix
                  (sort_desc (candidates (profile session) schemes))
                  default_max_results) as [rest E].
      apply StronglySorted_prefix with (l2 := rest). rewrite <- E.
      apply sort_desc_sorted. }
    repeat split; try assumption.
    + rewrite <- (length_map ms_score), H1, length_map. exact Hlen.
    + rewrite H1. apply StronglySorted_map_score, Hsorted.
Qed.

Lemma handler_stores_ranked_matches_witness :
  (length (matched_schemes
     (set_matched_schemes
        (mkSession "s1" None "en" "scheme_discovery" scenario_A_profile [])
        [mkMatchedScheme "PM-KISAN" "6000 per year" 65])) <= 7)%nat.
Proof.
  apply (handler_stores_ranked_matches
           [mkScheme "PM-KISAN" (Some "6000 per year") (Some scenario_A_rules)]
           (mkSession "s1" None "en" "scheme_discovery" scenario_A_profile [])
           _ "en"
           [mkMatch (mkScheme "PM-KISAN" (Some "6000 per year")
                              (Some scenario_A_rules)) 65]
           scenario_A_profile "en").
  vm_compute. reflexivity.
Defined.

(** A scheme the profile is not eligible for leaves no trace: with or
    without it in the catalog the matcher returns the same list. *)
Theorem ineligible_scheme_is_invisible (before after : list Scheme)
    (s : Scheme) (p : CitizenProfile) (max_results : Z) :
  eligible p s = false ->
  match_schemes (before ++ s :: after) p max_results
  = match_schemes (before ++ after) p max_results.
Proof.
  intros H. unfold match_schemes. rewrite !candidates_filter_map.
  rewrite !List.filter_app. simpl. rewrite H. reflexivity.
Qed.

Lemma ineligible_scheme_is_invisible_witness :
  match_schemes
    ([universal_scheme]
     ++ mkScheme "Old age pension" None (Some scenario_B_rules)
     :: [universal_scheme]) scenario_B_profile 7
  = match_schemes ([universal_scheme] ++ [universal_scheme])
                  scenario_B_profile 7.
Proof.
  apply (ineligible_scheme_is_invisible [universal_scheme] [universal_scheme]).
  reflexivity.
Defined.

(** Answering the question the profiler asks is progress: once the field
    the identifier stands for ([annual_income] for ["income"], the field of
    the same name otherwise) is set, one more critical field is known and the
    profiler no longer asks that question. *)
Theorem answering_makes_progress (p p' : CitizenProfile) (q : string)
    (v : Value) :
  get_profiling_question p = Some q ->
  setattr_field p (if String.eqb q "income" then "annual_income" else q) v
  = Some p' ->
  filled p' = S (filled p) /\ get_profiling_question p' <> Some q.
Proof.
  intros Hq. pose proof Hq as Hc.
  apply get_profiling_question_critical in Hc.
  destruct p as [a g s d o c i b di m lo ed fm cc cs pf sf].
  destruct Hc as [->|[->|[->|[->|[->| ->]]]]]; cbn [String.eqb Ascii.eqb];
    destruct v; try (intros H; discriminate H);
    revert Hq; destruct a, g, s, o, c, i;
    vm_compute; intros Hq; try discriminate Hq;
    intros [= <-]; (split; [reflexivity | discriminate]).
Qed.

Lemma answering_makes_progress_witness :
  filled (mkCitizenProfile (Some 35) (Some "female") None None None None None
            None None None None None None None None None None)
  = S (filled age_only_profile).
Proof.
  apply (answering_makes_progress age_only_profile _ "gender" (VStr "female")).
  - reflexivity.
  - reflexivity.
Defined.
